(** * upload-mcp: the upload pipeline of [src/index.ts]

    A shallow embedding of the two tool handlers of the MCP server,
    [handleUploadFile] and [handleUploadFileContent], together with the
    runtime functions they call ([basename], [extname], [toLowerCase],
    [atob], [Buffer.from(_, 'base64')], the [McpError] constructor).

    Strings are [string]s whose characters stand for code units below 256;
    bytes are [Byte.byte]; JavaScript objects used as lookup tables and the
    file system are [gmap]s keyed by strings.  The handlers run in a small
    state-and-exception monad over a [World] that holds the files on disk,
    the number of identifiers drawn so far and the chronological list of
    effects performed. *)

From Stdlib Require Import ZArith NArith Lia ZifyNat String Ascii List.
From stdpp Require Import gmap strings list.

Local Open Scope string_scope.
Local Open Scope list_scope.
Local Open Scope stdpp_scope.

(** ** Strings as sequences of code units *)

Definition chars (s : string) : list ascii := list_ascii_of_string s.
Definition str (l : list ascii) : string := string_of_list_ascii l.

(** [s.slice(from, to)] for [0 <= from] and [0 <= to]. *)
Definition slice (from to : nat) (s : string) : string :=
  str (take (to - from) (drop from (chars s))).

(** JavaScript truthiness of a string and of an optional string. *)
Definition truthy (s : string) : bool :=
  match s with EmptyString => false | String _ _ => true end.

Definition truthy_opt (o : option string) : bool :=
  match o with Some s => truthy s | None => false end.

(** [a || b] where [a] is an optional string and [b] a string. *)
Definition or_else (o : option string) (d : string) : string :=
  match o with
  | Some s => if truthy s then s else d
  | None => d
  end.

(** [msg] contains [part] as a contiguous substring. *)
Definition mentions (msg part : string) : Prop :=
  exists pre post, msg = pre +:+ part +:+ post.

(** [String.prototype.toLowerCase] on code units below 256: the ASCII
    capitals and the Latin-1 capitals (all of 0xC0..0xDE but the
    multiplication sign 0xD7) move up by 32. *)
Definition lower_char (c : ascii) : ascii :=
  let n := N_of_ascii c in
  if ((65 <=? n) && (n <=? 90))%N then ascii_of_N (n + 32)
  else if ((192 <=? n) && (n <=? 222) && negb (n =? 215))%N
       then ascii_of_N (n + 32)
  else c.

Definition toLowerCase (s : string) : string := str (map lower_char (chars s)).

(** ** [node:path] (POSIX flavour) *)

Definition is_slash (c : ascii) : bool := Ascii.eqb c "/".
Definition is_dot (c : ascii) : bool := Ascii.eqb c ".".

(** The characters of a path paired with their indices, last one first:
    the order in which the loops [for (i = path.length - 1; i >= 0; --i)]
    visit them. *)
Definition backwards (s : string) : list (nat * ascii) :=
  rev (combine (seq 0 (length (chars s))) (chars s)).

Module Basename.

Record state := mk {
  start : nat;
  end_ : option nat;          (* [None] stands for -1 *)
  matchedSlash : bool;
  stopped : bool              (* the loop has hit [break] *)
}.

Definition init : state := mk 0 None true false.

Definition step (st : state) (ic : nat * ascii) : state :=
  if stopped st then st else
  let (i, c) := ic in
  if is_slash c then
    if negb (matchedSlash st)
    then mk (i + 1) (end_ st) (matchedSlash st) true
    else st
  else
    match end_ st with
    | None => mk (start st) (Some (i + 1)) false false
    | Some _ => st
    end.

Definition run (path : string) : state := fold_left step (backwards path) init.

End Basename.

(** [basename(path)] without a suffix argument. *)
Definition basename (path : string) : string :=
  let st := Basename.run path in
  match Basename.end_ st with
  | None => ""
  | Some e => slice (Basename.start st) e path
  end.

Module Extname.

Record state := mk {
  startDot : option nat;      (* [None] stands for -1 *)
  startPart : nat;
  end_ : option nat;          (* [None] stands for -1 *)
  matchedSlash : bool;
  preDotState : Z;
  stopped : bool
}.

Definition init : state := mk None 0 None true 0 false.

Definition step (st : state) (ic : nat * ascii) : state :=
  if stopped st then st else
  let (i, c) := ic in
  if is_slash c then
    if negb (matchedSlash st)
    then mk (startDot st) (i + 1) (end_ st) (matchedSlash st) (preDotState st) true
    else st
  else
    let st1 :=
      match end_ st with
      | None => mk (startDot st) (startPart st) (Some (i + 1)) false (preDotState st) false
      | Some _ => st
      end in
    if is_dot c then
      match startDot st1 with
      | None => mk (Some i) (startPart st1) (end_ st1) (matchedSlash st1) (preDotState st1) false
      | Some _ =>
          if negb (preDotState st1 =? 1)%Z
          then mk (startDot st1) (startPart st1) (end_ st1) (matchedSlash st1) 1 false
          else st1
      end
    else
      match startDot st1 with
      | Some _ => mk (startDot st1) (startPart st1) (end_ st1) (matchedSlash st1) (-1) false
      | None => st1
      end.

Definition run (path : string) : state := fold_left step (backwards path) init.

End Extname.

(** [extname(path)]: empty, or the last dot of the last path component
    and what follows it. *)
Definition extname (path : string) : string :=
  let st := Extname.run path in
  match Extname.startDot st, Extname.end_ st with
  | Some sd, Some e =>
      if (Extname.preDotState st =? 0)%Z
         || ((Extname.preDotState st =? 1)%Z
             && Nat.eqb sd (e - 1)
             && Nat.eqb sd (Extname.startPart st + 1))
      then ""
      else slice sd e path
  | _, _ => ""
  end.

(** ** MIME tables *)

(** The table of [detectContentType], used by [upload_file]. *)
Definition mimeMap : gmap string string :=
  list_to_map [
    (".jpg", "image/jpeg"); (".jpeg", "image/jpeg"); (".png", "image/png");
    (".gif", "image/gif"); (".webp", "image/webp"); (".svg", "image/svg+xml");
    (".bmp", "image/bmp"); (".ico", "image/x-icon"); (".tiff", "image/tiff");
    (".tif", "image/tiff");
    (".pdf", "application/pdf"); (".doc", "application/msword");
    (".docx", "application/vnd.openxmlformats-officedocument.wordprocessingml.document");
    (".xls", "application/vnd.ms-excel");
    (".xlsx", "application/vnd.openxmlformats-officedocument.spreadsheetml.sheet");
    (".ppt", "application/vnd.ms-powerpoint");
    (".pptx", "application/vnd.openxmlformats-officedocument.presentationml.presentation");
    (".txt", "text/plain"); (".html", "text/html"); (".htm", "text/html");
    (".css", "text/css"); (".js", "text/javascript"); (".mjs", "text/javascript");
    (".json", "application/json"); (".xml", "application/xml");
    (".csv", "text/csv"); (".md", "text/markdown");
    (".zip", "application/zip"); (".tar", "application/x-tar");
    (".gz", "application/gzip"); (".7z", "application/x-7z-compressed");
    (".rar", "application/vnd.rar");
    (".mp3", "audio/mpeg"); (".wav", "audio/wav"); (".ogg", "audio/ogg");
    (".m4a", "audio/mp4"); (".flac", "audio/flac");
    (".mp4", "video/mp4"); (".avi", "video/x-msvideo"); (".mov", "video/quicktime");
    (".wmv", "video/x-ms-wmv"); (".webm", "video/webm"); (".mkv", "video/x-matroska");
    (".ts", "text/typescript"); (".tsx", "text/typescript"); (".py", "text/x-python");
    (".java", "text/x-java"); (".c", "text/x-c"); (".cpp", "text/x-c++");
    (".rs", "text/x-rust"); (".go", "text/x-go")
  ].

(** [mimeMap[ext] || 'image/jpeg'] *)
Definition detectContentType (filePath : string) : string :=
  let ext := toLowerCase (extname filePath) in
  or_else (mimeMap !! ext) "image/jpeg".

(** The table written inline in [handleUploadFileContent]. *)
Definition contentMimeMap : gmap string string :=
  list_to_map [
    (".jpg", "image/jpeg"); (".jpeg", "image/jpeg"); (".png", "image/png");
    (".gif", "image/gif"); (".webp", "image/webp"); (".pdf", "application/pdf");
    (".txt", "text/plain"); (".json", "application/json");
    (".xml", "application/xml"); (".zip", "application/zip");
    (".mp3", "audio/mpeg"); (".mp4", "video/mp4"); (".wav", "audio/wav")
  ].

(** [mimeMap[ext] || 'application/octet-stream'] *)
Definition detectContentMimeType (filename : string) : string :=
  let ext := toLowerCase (extname filename) in
  or_else (contentMimeMap !! ext) "application/octet-stream".

(** ** Base64 *)

(** The 64 characters of the standard alphabet, by value. *)
Definition b64_char (i : N) : ascii :=
  if (i <? 26)%N then ascii_of_N (65 + i)
  else if (i <? 52)%N then ascii_of_N (97 + (i - 26))
  else if (i <? 62)%N then ascii_of_N (48 + (i - 52))
  else if (i =? 62)%N then "+"%char
  else "/"%char.

(** The value of a character of the standard alphabet. *)
Definition b64_index (c : ascii) : option N :=
  let n := N_of_ascii c in
  if ((65 <=? n) && (n <=? 90))%N then Some (n - 65)%N
  else if ((97 <=? n) && (n <=? 122))%N then Some (n - 97 + 26)%N
  else if ((48 <=? n) && (n <=? 57))%N then Some (n - 48 + 52)%N
  else if (n =? 43)%N then Some 62%N
  else if (n =? 47)%N then Some 63%N
  else None.

(** The decoder behind [Buffer.from(_, 'base64')] also takes the URL-safe
    alphabet: [-] for 62 and [_] for 63. *)
Definition b64_index_lenient (c : ascii) : option N :=
  let n := N_of_ascii c in
  if (n =? 45)%N then Some 62%N
  else if (n =? 95)%N then Some 63%N
  else b64_index c.

Definition byte_of_N (n : N) : Byte.byte :=
  match Byte.of_N (n mod 256) with
  | Some b => b
  | None => Byte.x00
  end.

(** Groups of four 6-bit values give three bytes; a last group of three
    gives two bytes, of two gives one, and a single leftover value gives
    none. *)
Fixpoint sextets_to_bytes (l : list N) : list Byte.byte :=
  match l with
  | a :: b :: c :: d :: rest =>
      byte_of_N (a * 4 + b / 16)
      :: byte_of_N ((b mod 16) * 16 + c / 4)
      :: byte_of_N ((c mod 4) * 64 + d)
      :: sextets_to_bytes rest
  | [a; b; c] =>
      [byte_of_N (a * 4 + b / 16); byte_of_N ((b mod 16) * 16 + c / 4)]
  | [a; b] => [byte_of_N (a * 4 + b / 16)]
  | _ => []
  end.

(** *** [atob]: forgiving-base64 decode *)

(** ASCII whitespace: TAB, LF, FF, CR, SPACE. *)
Definition is_ascii_whitespace (c : ascii) : bool :=
  let n := N_of_ascii c in
  ((n =? 9) || (n =? 10) || (n =? 12) || (n =? 13) || (n =? 32))%N.

Definition is_pad (c : ascii) : bool := Ascii.eqb c "=".

(** Remove one or two trailing [=]. *)
Definition strip_padding (l : list ascii) : list ascii :=
  match rev l with
  | c1 :: c2 :: r =>
      if is_pad c1 then (if is_pad c2 then rev r else rev (c2 :: r)) else l
  | [c1] => if is_pad c1 then [] else l
  | [] => l
  end.

(** [atob(s)]: [None] when it throws [InvalidCharacterError]. *)
Definition atob (s : string) : option (list Byte.byte) :=
  let data := filter (fun c => is_ascii_whitespace c = false) (chars s) in
  let data := if Nat.eqb (length data mod 4) 0 then strip_padding data else data in
  if Nat.eqb (length data mod 4) 1 then None
  else
    match mapM b64_index data with
    | Some sextets => Some (sextets_to_bytes sextets)
    | None => None
    end.

(** *** [Buffer.from(s, 'base64')] *)

(** What the decoder reads: the input up to its first [=]. *)
Fixpoint until_pad (l : list ascii) : list ascii :=
  match l with
  | [] => []
  | c :: l' => if is_pad c then [] else c :: until_pad l'
  end.

(** The decoder never throws: it stops at the first [=], passes over the
    characters outside the alphabet (white space, anything else) that come
    before it, and drops leftover bits. *)
Definition Buffer_from_base64 (s : string) : list Byte.byte :=
  sextets_to_bytes (omap b64_index_lenient (until_pad (chars s))).

(** ** The inline-data prefix *)

(** [.] matches any character but a line terminator. *)
Definition is_line_terminator (c : ascii) : bool :=
  let n := N_of_ascii c in ((n =? 10) || (n =? 13))%N.

Fixpoint strip_prefix (p l : list ascii) : option (list ascii) :=
  match p, l with
  | [], _ => Some l
  | a :: p', b :: l' => if Ascii.eqb a b then strip_prefix p' l' else None
  | _ :: _, [] => None
  end.

(** [(.+)$]: the rest of the input, not empty and free of line
    terminators. *)
Definition dot_plus_to_end (l : list ascii) : bool :=
  match l with
  | [] => false
  | _ => forallb (fun c => negb (is_line_terminator c)) l
  end.

(** The lazy group [(.+?)] followed by [;base64,(.+)$].  [acc] holds the
    characters already taken by the group, last one first; the matcher
    first tries to finish the group here and takes one more character only
    when that fails. *)
Fixpoint lazy_group (acc rest : list ascii) : option (list ascii * list ascii) :=
  let extend :=
    match rest with
    | c :: rest' =>
        if is_line_terminator c then None else lazy_group (c :: acc) rest'
    | [] => None
    end in
  match strip_prefix (chars ";base64,") rest with
  | Some payload =>
      if dot_plus_to_end payload then Some (rev acc, payload) else extend
  | None => extend
  end.

(** [s.match(/^data:(.+?);base64,(.+)$/)]: the two groups when it
    matches. *)
Definition match_data_url (s : string) : option (string * string) :=
  match strip_prefix (chars "data:") (chars s) with
  | Some (c :: rest) =>
      if is_line_terminator c then None
      else
        match lazy_group [c] rest with
        | Some (m, payload) => Some (str m, str payload)
        | None => None
        end
  | _ => None
  end.

(** ** Errors *)

Inductive ErrorCode := InvalidParams | InternalError | MethodNotFound.

(** The JSON-RPC numbers of the SDK's [ErrorCode] enum, as they print. *)
Definition error_number (c : ErrorCode) : string :=
  match c with
  | InvalidParams => "-32602"
  | InternalError => "-32603"
  | MethodNotFound => "-32601"
  end.

(** What [throw] carries.  Every thrown value of the pipeline is an
    [Error], so [error instanceof Error] holds and [error.message] is what
    the handlers' [catch] reads. *)
Inductive Thrown :=
| Mcp (code : ErrorCode) (message : string)
| Err (message : string).

(** [new McpError(code, message)]: the SDK's constructor calls
    [super(`MCP error ${code}: ${message}`)]. *)
Definition McpError (code : ErrorCode) (message : string) : Thrown :=
  Mcp code ("MCP error " +:+ error_number code +:+ ": " +:+ message).

Definition message_of (e : Thrown) : string :=
  match e with
  | Mcp _ m => m
  | Err m => m
  end.

Definition code_of (e : Thrown) : option ErrorCode :=
  match e with
  | Mcp c _ => Some c
  | Err _ => None
  end.

(** ** The world outside the handlers *)

(** Effects, in the order they are attempted. *)
Inductive Event :=
| EvExists (path : string)
| EvRandomUUID (id : string)
| EvWrite (path : string) (data : list Byte.byte)
| EvSpawn (cmd : list string)
| EvDelete (path : string)
| EvConsoleError (text : string) (cause : string).

Record World := mkWorld {
  files : gmap string (list Byte.byte);
  draws : nat;
  trace : list Event
}.

Inductive SpawnOutcome :=
| Exited (exitCode : Z) (stdout stderr : string)
| SpawnThrows (message : string).

(** A write that throws: its message, and what it leaves at the path.
    [None]: the path is as it was (the write failed before the file was
    opened); [Some data]: a file holding [data], created or truncated and
    possibly written in part. *)
Record WriteFailure := mkWriteFailure {
  write_message : string;
  left_behind : option (list Byte.byte)
}.

(** How the environment answers: the successive values of [randomUUID()],
    whether a write or a deletion throws (and how), and how a spawned
    process ends. *)
Record Env := mkEnv {
  uuid_source : nat -> string;
  write_throws : string -> list Byte.byte -> option WriteFailure;
  spawn_outcome : list string -> SpawnOutcome;
  delete_throws : string -> option string
}.

Inductive Completion (A : Type) :=
| Normal (a : A)
| Abrupt (e : Thrown).
Arguments Normal {A} a.
Arguments Abrupt {A} e.

Definition M (A : Type) : Type := World -> Completion A * World.

Definition ret {A} (a : A) : M A := fun w => (Normal a, w).

Definition throw {A} (e : Thrown) : M A := fun w => (Abrupt e, w).

Definition bind {A B} (m : M A) (k : A -> M B) : M B :=
  fun w =>
    match m w with
    | (Normal a, w') => k a w'
    | (Abrupt e, w') => (Abrupt e, w')
    end.

Definition try_catch {A} (body : M A) (handler : Thrown -> M A) : M A :=
  fun w =>
    match body w with
    | (Normal a, w') => (Normal a, w')
    | (Abrupt e, w') => handler e w'
    end.

Notation "x <~ m ;; k" := (bind m (fun x => k))
  (at level 100, m at next level, right associativity).

Definition record (ev : Event) (w : World) : World :=
  mkWorld (files w) (draws w) (trace w ++ [ev]).

(** [await Bun.file(path).exists()] *)
Definition Bun_file_exists (path : string) : M bool :=
  fun w =>
    (Normal (match files w !! path with Some _ => true | None => false end),
     record (EvExists path) w).

(** [randomUUID()] *)
Definition randomUUID (E : Env) : M string :=
  fun w =>
    let id := uuid_source E (draws w) in
    (Normal id, mkWorld (files w) (S (draws w)) (trace w ++ [EvRandomUUID id])).

(** [await Bun.write(path, data)] *)
Definition Bun_write (E : Env) (path : string) (data : list Byte.byte) : M unit :=
  fun w =>
    match write_throws E path data with
    | Some failure =>
        (Abrupt (Err (write_message failure)),
         mkWorld (match left_behind failure with
                  | Some partial => <[path := partial]> (files w)
                  | None => files w
                  end)
           (draws w) (trace w ++ [EvWrite path data]))
    | None =>
        (Normal tt,
         mkWorld (<[path := data]> (files w)) (draws w) (trace w ++ [EvWrite path data]))
    end.

(** [Bun.spawn(cmd, ...)] followed by the three awaits on its output
    streams and exit status. *)
Definition Bun_spawn (E : Env) (cmd : list string) : M (Z * string * string) :=
  fun w =>
    match spawn_outcome E cmd with
    | Exited code out err => (Normal (code, out, err), record (EvSpawn cmd) w)
    | SpawnThrows msg => (Abrupt (Err msg), record (EvSpawn cmd) w)
    end.

(** [await Bun.file(path).delete()] *)
Definition Bun_file_delete (E : Env) (path : string) : M unit :=
  fun w =>
    match delete_throws E path with
    | Some msg => (Abrupt (Err msg), record (EvDelete path) w)
    | None =>
        (Normal tt,
         mkWorld (delete path (files w)) (draws w) (trace w ++ [EvDelete path]))
    end.

(** [console.error(text, cause)] *)
Definition console_error (text : string) (cause : Thrown) : M unit :=
  fun w => (Normal tt, record (EvConsoleError text (message_of cause)) w).

(** [atob(s)] as a statement that may throw. *)
Definition js_atob (s : string) : M unit :=
  match atob s with
  | Some _ => ret tt
  | None => throw (Err "The string to be decoded is not correctly encoded.")
  end.

(** ** Arguments and results *)

(** The argument records of the two tools, and the objects the handlers
    hand to [JSON.stringify] on success (the text of the one content item of
    the reply). *)

Module FileArgs.
Record t := mk { file_path : string; content_type : option string }.
End FileArgs.

Module FileResult.
Record t := mk {
  success : bool;
  file_path : string;
  folder_id : string;
  original_filename : string;
  content_type : string;
  remote_path : string;
  url : string;
  message : string
}.
End FileResult.

Module ContentArgs.
Record t := mk { content : string; filename : string; mime_type : option string }.
End ContentArgs.

Module ContentResult.
Record t := mk {
  success : bool;
  filename : string;
  folder_id : string;
  mime_type : string;
  remote_path : string;
  url : string;
  content_size : nat;
  message : string
}.
End ContentResult.

(** The argument vector handed to [Bun.spawn]. *)
Definition uploadCommand (remotePath source contentType : string) : list string :=
  [ "curl"; "-X"; "PUT";
    "https://s3.reily.app/public/" +:+ remotePath;
    "-T"; source;
    "-H"; "Content-Type: " +:+ contentType;
    "--silent"; "--fail" ].

(** ** [handleUploadFile] *)

Definition handleUploadFile (E : Env) (args : FileArgs.t) : M FileResult.t :=
  let file_path := FileArgs.file_path args in
  let content_type := FileArgs.content_type args in
  if negb (truthy file_path) then
    throw (McpError InvalidParams "file_path is required")
  else
    try_catch
      (exists_ <~ Bun_file_exists file_path ;;
       if negb exists_ then
         throw (McpError InvalidParams ("File not found: " +:+ file_path))
       else
         folderId <~ randomUUID E ;;
         let originalFileName := basename file_path in
         let remotePath := folderId +:+ "/" +:+ originalFileName in
         let content_type := or_else content_type (detectContentType file_path) in
         p <~ Bun_spawn E (uploadCommand remotePath file_path content_type) ;;
         let '(exitCode, stdout, stderr) := p in
         if negb (exitCode =? 0)%Z then
           throw (Err ("Upload failed: " +:+ stderr))
         else
           let publicUrl := "https://s3.reily.app/public/" +:+ remotePath in
           ret (FileResult.mk true file_path folderId originalFileName content_type
                  remotePath publicUrl
                  ("File uploaded successfully to " +:+ publicUrl)))
      (fun error =>
         throw (McpError InternalError ("Failed to upload file: " +:+ message_of error))).

(** ** [handleUploadFileContent] *)

(** The [if (base64Content.startsWith('data:'))] block: the new values of
    [mime_type] and [base64Content]. *)
Definition strip_data_url (mime_type : option string) (content : string)
  : option string * string :=
  if String.prefix "data:" content then
    match match_data_url content with
    | Some (m1, m2) => (Some (or_else mime_type m1), m2)
    | None => (mime_type, content)
    end
  else (mime_type, content).

Definition handleUploadFileContent (E : Env) (args : ContentArgs.t) : M ContentResult.t :=
  let content := ContentArgs.content args in
  let filename := ContentArgs.filename args in
  let mime_type := ContentArgs.mime_type args in
  if negb (truthy content) || negb (truthy filename) then
    throw (McpError InvalidParams "content and filename are required")
  else
    try_catch
      (let '(mime_type, base64Content) := strip_data_url mime_type content in
       _ <~ try_catch
              (js_atob (slice 0 100 base64Content))
              (fun decodeError =>
                 throw (McpError InvalidParams "Invalid base64 content provided")) ;;
       folderId <~ randomUUID E ;;
       let originalFileName := basename filename in
       let remotePath := folderId +:+ "/" +:+ originalFileName in
       let buffer := Buffer_from_base64 base64Content in
       let tempFilePath := "/tmp/" +:+ folderId +:+ "_" +:+ originalFileName in
       _ <~ Bun_write E tempFilePath buffer ;;
       let detectedMimeType := or_else mime_type (detectContentMimeType filename) in
       p <~ Bun_spawn E (uploadCommand remotePath tempFilePath detectedMimeType) ;;
       let '(exitCode, stdout, stderr) := p in
       _ <~ try_catch
              (Bun_file_delete E tempFilePath)
              (fun cleanupError =>
                 console_error "Warning: Failed to clean up temporary file:" cleanupError) ;;
       if negb (exitCode =? 0)%Z then
         throw (Err ("Upload failed: " +:+ stderr))
       else
         let publicUrl := "https://s3.reily.app/public/" +:+ remotePath in
         ret (ContentResult.mk true originalFileName folderId detectedMimeType
                remotePath publicUrl (length buffer)
                ("File content uploaded successfully to " +:+ publicUrl)))
      (fun error =>
         throw (McpError InternalError
                  ("Failed to upload file content: " +:+ message_of error))).

(** ** Reading a trace *)

Definition is_spawn (ev : Event) : bool :=
  match ev with EvSpawn _ => true | _ => false end.

Definition is_write (ev : Event) : bool :=
  match ev with EvWrite _ _ => true | _ => false end.

(** How many transfers (curl invocations) a trace holds. *)
Fixpoint transfers (t : list Event) : nat :=
  match t with
  | [] => 0
  | ev :: t' => (if is_spawn ev then 1 else 0) + transfers t'
  end.


(** How many times a trace writes a file. *)
Fixpoint writes (t : list Event) : nat :=
  match t with
  | [] => 0
  | ev :: t' => (if is_write ev then 1 else 0) + writes t'
  end.

(** ** Reference definitions taken from the specification's wording *)

(** Standard base64 encoding (RFC 4648, section 4): each group of three
    bytes gives four characters; a last group of two bytes gives three
    characters and one [=], of one byte two characters and [==]. *)
Definition sextet1 (a : Byte.byte) : N := Byte.to_N a / 4.
Definition sextet2 (a b : Byte.byte) : N := (Byte.to_N a mod 4) * 16 + Byte.to_N b / 16.
Definition sextet3 (b c : Byte.byte) : N := (Byte.to_N b mod 16) * 4 + Byte.to_N c / 64.
Definition sextet4 (c : Byte.byte) : N := Byte.to_N c mod 64.

Fixpoint encode_groups (bs : list Byte.byte) : list ascii :=
  match bs with
  | a :: b :: c :: rest =>
      b64_char (sextet1 a) :: b64_char (sextet2 a b)
      :: b64_char (sextet3 b c) :: b64_char (sextet4 c) :: encode_groups rest
  | [a; b] =>
      [b64_char (sextet1 a); b64_char (sextet2 a b);
       b64_char (sextet3 b Byte.x00); "="%char]
  | [a] =>
      [b64_char (sextet1 a); b64_char (sextet2 a Byte.x00); "="%char; "="%char]
  | [] => []
  end.

Definition base64_encode (bs : list Byte.byte) : string := str (encode_groups bs).

(** The precedence of MIME types as the specification words it: the
    explicit argument when it is present and not empty, else the type of
    the inline-data prefix, else the table entry of the lower-cased
    extension, else the default. *)
Definition mime_precedence (explicit : option string) (content filename : string) : string :=
  match explicit with
  | Some (String c m) => String c m
  | _ =>
      match match_data_url content with
      | Some (prefix_type, _) => prefix_type
      | None =>
          match contentMimeMap !! toLowerCase (extname filename) with
          | Some table_type => table_type
          | None => "application/octet-stream"
          end
      end
  end.

(** The identifier source never yields the same value twice. *)
Definition never_repeats (E : Env) : Prop :=
  forall i j, uuid_source E i = uuid_source E j -> i = j.

(** ** Sample environments *)

(** Identifiers [id], [idx], [idxx], ...; every write and deletion
    succeeds; curl exits with status 0. *)
Definition env_ok : Env :=
  mkEnv (fun n => "id" +:+ str (repeat "x"%char n))
        (fun _ _ => None)
        (fun _ => Exited 0 "" "")
        (fun _ => None).

(** As [env_ok], but curl exits with status 22 and a diagnostic. *)
Definition env_curl_fails : Env :=
  mkEnv (fun n => "id" +:+ str (repeat "x"%char n))
        (fun _ _ => None)
        (fun _ => Exited 22 "" "curl: (22) The requested URL returned error: 403")
        (fun _ => None).

(** As [env_ok], but the deletion of a file throws. *)
Definition env_delete_fails : Env :=
  mkEnv (fun n => "id" +:+ str (repeat "x"%char n))
        (fun _ _ => None)
        (fun _ => Exited 0 "" "")
        (fun _ => Some "EPERM: operation not permitted, unlink").

(** A disk that holds [/tmp/a.png] and nothing else. *)
Definition world0 : World := mkWorld (<["/tmp/a.png" := [Byte.x89]]> ∅) 0 [].

(** The bytes of the text [hello]. *)
Definition hello : list Byte.byte := [Byte.x68; Byte.x65; Byte.x6c; Byte.x6c; Byte.x6f].

(** 75 bytes, whose encoding has exactly 100 characters and no padding. *)
Definition seventy_five : list Byte.byte := repeat Byte.x2a 75.

(** Characters of a string that stand for no 6-bit value in the decoder. *)
Definition no_sextet (s : string) : Prop :=
  Forall (fun c => b64_index_lenient c = None) (chars s).

(** ** Names for the values a call of [handleUploadFileContent] computes *)

(** [base64Content] after the inline-data block. *)
Definition payload_of (mime_type : option string) (content : string) : string :=
  (strip_data_url mime_type content).2.

(** [buffer] *)
Definition staged_bytes (mime_type : option string) (content : string) : list Byte.byte :=
  Buffer_from_base64 (payload_of mime_type content).

(** [folderId], drawn in world [w]. *)
Definition folder_of (E : Env) (w : World) : string := uuid_source E (draws w).

(** [remotePath] *)
Definition remote_of (E : Env) (w : World) (name : string) : string :=
  folder_of E w +:+ "/" +:+ basename name.

(** [tempFilePath] *)
Definition staged_path (E : Env) (w : World) (filename : string) : string :=
  "/tmp/" +:+ folder_of E w +:+ "_" +:+ basename filename.

(** [detectedMimeType] *)
Definition content_type_sent (mime_type : option string) (content filename : string) : string :=
  or_else (strip_data_url mime_type content).1 (detectContentMimeType filename).

(** The curl invocation of [handleUploadFileContent]. *)
Definition content_command (E : Env) (w : World) (args : ContentArgs.t) : list string :=
  uploadCommand (remote_of E w (ContentArgs.filename args))
    (staged_path E w (ContentArgs.filename args))
    (content_type_sent (ContentArgs.mime_type args) (ContentArgs.content args)
       (ContentArgs.filename args)).

(** The curl invocation of [handleUploadFile]. *)
Definition file_command (E : Env) (w : World) (args : FileArgs.t) : list string :=
  uploadCommand (remote_of E w (FileArgs.file_path args))
    (FileArgs.file_path args)
    (or_else (FileArgs.content_type args) (detectContentType (FileArgs.file_path args))).

(** The same environment with another answer to deletions. *)
Definition with_delete (E : Env) (d : string -> option string) : Env :=
  mkEnv (uuid_source E) (write_throws E) (spawn_outcome E) d.

(** Characters an encoding may hold: the alphabet and the padding. *)
Definition b64_or_pad (c : ascii) : bool :=
  match b64_index c with
  | Some _ => true
  | None => is_pad c
  end.

(** ** The tool list and the dispatcher *)

(** One entry of [inputSchema.properties]; every property of both tools has
    [type: 'string']. *)
Record ToolProperty := mkProperty {
  prop_name : string;
  prop_description : string
}.

Record Tool := mkTool {
  tool_name : string;
  tool_description : string;
  tool_properties : list ToolProperty;
  tool_required : list string
}.

(** The answer of the [ListToolsRequestSchema] handler. *)
Definition listTools : list Tool :=
  [ mkTool "upload_file"
      "Upload a local file to S3-compatible storage and get a shareable URL. Files are automatically organized in UUID folders."
      [ mkProperty "file_path" "Local path to the file to upload";
        mkProperty "content_type"
          "Optional MIME type of the file (e.g., image/png, text/plain, application/pdf). If not provided, will be auto-detected from file extension." ]
      [ "file_path" ];
    mkTool "upload_file_content"
      "Upload file content directly to S3-compatible storage and get a shareable URL. Files are automatically organized in UUID folders."
      [ mkProperty "content" "Base64-encoded file content";
        mkProperty "filename" "Original filename with extension";
        mkProperty "mime_type"
          "MIME type of the file content (e.g., image/png, text/plain, application/pdf)" ]
      [ "content"; "filename" ] ].

(** [request.params] of a tool call: the tool's name and, when the call
    carries one, the argument object, whose members are the strings the
    input schemas declare.  [None] stands for a call without [arguments]. *)
Module Request.
Record t := mk { name : string; arguments : option (gmap string string) }.
End Request.

(** What [const { file_path } = args] and [const { content, filename } =
    args] throw when [args] is [undefined]: a [TypeError], which is no
    [McpError]; the text is the engine's. *)
Definition destructure_error : Thrown :=
  Err "Right side of assignment cannot be destructured".

(** A required member as the handler sees it.  An absent member reads as
    [undefined]; the only thing a handler does with a required member before
    its guard is to test it for falsiness, where [undefined] and the empty
    string agree, so an absent member is handed over as the empty string. *)
Definition required_member (o : gmap string string) (k : string) : string :=
  default "" (o !! k).

Inductive ToolReply :=
| FileReply (r : FileResult.t)
| ContentReply (r : ContentResult.t).

(** [this.handleUploadFile(request.params.arguments as any)]: the handler
    destructures its argument first, before its guard and outside its
    [try], which throws when the call carries no argument object. *)
Definition upload_file_call (E : Env) (arguments : option (gmap string string))
  : M FileResult.t :=
  match arguments with
  | None => throw destructure_error
  | Some args =>
      handleUploadFile E
        (FileArgs.mk (required_member args "file_path") (args !! "content_type"))
  end.

(** [this.handleUploadFileContent(request.params.arguments as any)] *)
Definition upload_file_content_call (E : Env) (arguments : option (gmap string string))
  : M ContentResult.t :=
  match arguments with
  | None => throw destructure_error
  | Some args =>
      handleUploadFileContent E
        (ContentArgs.mk (required_member args "content")
           (required_member args "filename") (args !! "mime_type"))
  end.

(** The [CallToolRequestSchema] handler. *)
Definition callTool (E : Env) (request : Request.t) : M ToolReply :=
  if String.eqb (Request.name request) "upload_file" then
    r <~ upload_file_call E (Request.arguments request) ;;
    ret (FileReply r)
  else if String.eqb (Request.name request) "upload_file_content" then
    r <~ upload_file_content_call E (Request.arguments request) ;;
    ret (ContentReply r)
  else
    throw (McpError MethodNotFound ("Unknown tool: " +:+ Request.name request)).

(** A server's life: the calls it serves, one after the other, each in the
    world the previous one left. *)
Fixpoint callTools (E : Env) (requests : list Request.t) (w : World)
  : list (Completion ToolReply) * World :=
  match requests with
  | [] => ([], w)
  | request :: rest =>
      let '(c, w1) := callTool E request w in
      let '(cs, w2) := callTools E rest w1 in
      (c :: cs, w2)
  end.

(** The [folder_id] of a reply. *)
Definition reply_folder (reply : ToolReply) : string :=
  match reply with
  | FileReply r => FileResult.folder_id r
  | ContentReply r => ContentResult.folder_id r
  end.

(** The folder identifiers of the calls that succeeded, in order. *)
Fixpoint folders (cs : list (Completion ToolReply)) : list string :=
  match cs with
  | [] => []
  | Normal reply :: cs' => reply_folder reply :: folders cs'
  | Abrupt _ :: cs' => folders cs'
  end.

(** The content of an inline-data URL. *)
Definition data_url (mime payload : string) : string :=
  "data:" +:+ mime +:+ ";base64," +:+ payload.

(** A string without the given character. *)
Definition lacks (c : ascii) (s : string) : Prop := Forall (fun x => x <> c) (chars s).

(** A string without line terminators. *)
Definition one_line (s : string) : Prop :=
  Forall (fun x => is_line_terminator x = false) (chars s).

(** As [env_ok], but the write of a file throws once the file is open and
    its first two bytes are written. *)
Definition env_write_fails : Env :=
  mkEnv (fun n => "id" +:+ str (repeat "x"%char n))
        (fun _ data => Some (mkWriteFailure "ENOSPC: no space left on device, write"
                               (Some (take 2 data))))
        (fun _ => Exited 0 "" "")
        (fun _ => None).

(** As [env_ok], but no process can be started. *)
Definition env_spawn_fails : Env :=
  mkEnv (fun n => "id" +:+ str (repeat "x"%char n))
        (fun _ _ => None)
        (fun _ => SpawnThrows "Executable not found in $PATH: curl")
        (fun _ => None).

(** Two identifiers in the canonical form of [randomUUID()]. *)
Definition env_uuid : Env :=
  mkEnv (fun n => if Nat.even n then "e4847e59-2003-443c-bd47-775fc6b6a195"
                  else "0b9fae6c-7d1e-4c55-9a39-1f2c5a1d8e07")
        (fun _ _ => None)
        (fun _ => Exited 0 "" "")
        (fun _ => None).

(** The characters of a list paired with their indices, last one first. *)
Definition indexed_backwards (l : list ascii) : list (nat * ascii) :=
  rev (combine (seq 0 (length l)) l).

(** A string of slashes only. *)
Definition only_slashes (s : string) : Prop :=
  Forall (fun x => is_slash x = true) (chars s).

(** A directory prefix: empty, or ending in a slash. *)
Definition dir_prefix (s : string) : Prop := s = "" \/ exists d, s = d +:+ "/".

(** A string without slash. *)
Definition slash_free (s : string) : Prop :=
  Forall (fun x => is_slash x = false) (chars s).

(** A string without slash and without dot. *)
Definition plain (s : string) : Prop :=
  Forall (fun x => is_slash x = false /\ is_dot x = false) (chars s).

(** * Properties *)

(** ** The runtime functions on sample inputs *)

Example basename_ex1 : basename "/tmp/a.png" = "a.png".
Proof. reflexivity. Qed.
Example basename_ex2 : basename "dir/sub/" = "sub".
Proof. reflexivity. Qed.
Example extname_ex1 : extname "/tmp/a.PNG" = ".PNG".
Proof. reflexivity. Qed.
Example extname_ex2 : extname ".bashrc" = "".
Proof. reflexivity. Qed.
Example extname_ex3 : extname "a.b/.." = "".
Proof. reflexivity. Qed.
Example extname_ex4 : extname "x.tar.gz/" = ".gz".
Proof. reflexivity. Qed.
Example detect_ex1 : detectContentType "/tmp/a.PNG" = "image/png".
Proof. reflexivity. Qed.
Example detect_ex2 : detectContentType "/tmp/a.unknown" = "image/jpeg".
Proof. reflexivity. Qed.
Example detect_ex3 : detectContentMimeType "hello.txt" = "text/plain".
Proof. reflexivity. Qed.
Example detect_ex4 : detectContentMimeType "a.svg" = "application/octet-stream".
Proof. reflexivity. Qed.

Example atob_ex1 : atob "aGVsbG8=" = Some (Byte.x68 :: Byte.x65 :: Byte.x6c :: Byte.x6c :: Byte.x6f :: nil).
Proof. reflexivity. Qed.
Example atob_ex2 : atob "!!!not-base64!!!" = None.
Proof. reflexivity. Qed.
Example atob_ex3 : atob "" = Some [].
Proof. reflexivity. Qed.
Example atob_ex4 : atob "aGVsbG8" = Some (Byte.x68 :: Byte.x65 :: Byte.x6c :: Byte.x6c :: Byte.x6f :: nil).
Proof. reflexivity. Qed.
Example atob_ex5 : atob "aGVsb" = None.
Proof. reflexivity. Qed.
Example atob_ex6 : atob "aG=sbG8=" = None.
Proof. reflexivity. Qed.
Example buffer_ex2 : Buffer_from_base64 "aGVs=bG8=" = (Byte.x68 :: Byte.x65 :: Byte.x6c :: nil).
Proof. reflexivity. Qed.
Example buffer_ex3 : length (Buffer_from_base64 (str (repeat "A"%char 100) +:+ "=AAAA")) = 75.
Proof. reflexivity. Qed.
Example buffer_ex4 : Buffer_from_base64 "aG Vs bG8" = hello.
Proof. reflexivity. Qed.
Example buffer_ex1 : Buffer_from_base64 "aGVsbG8=" = (Byte.x68 :: Byte.x65 :: Byte.x6c :: Byte.x6c :: Byte.x6f :: nil).
Proof. reflexivity. Qed.
Example match_ex1 : match_data_url "data:image/png;base64,AAAA" = Some ("image/png", "AAAA").
Proof. reflexivity. Qed.
Example match_ex2 : match_data_url "data:;base64,AAAA" = None.
Proof. reflexivity. Qed.
Example match_ex3 : match_data_url "data:a;base64,;base64,AAAA" = Some ("a", ";base64,AAAA").
Proof. reflexivity. Qed.
Example match_ex4 : match_data_url "data:a;base64,;base64," = Some ("a", ";base64,").
Proof. reflexivity. Qed.
Example match_ex5 : match_data_url "data:;base64,;base64,x" = Some (";base64,", "x").
Proof. reflexivity. Qed.
Example match_ex6 : match_data_url "data:a;base64," = None.
Proof. reflexivity. Qed.
(** The two examples of the specification. *)
Example upload_file_ex :
  (handleUploadFile env_ok (FileArgs.mk "/tmp/a.png" None) world0).1
  = Normal (FileResult.mk true "/tmp/a.png" "id" "a.png" "image/png" "id/a.png"
              "https://s3.reily.app/public/id/a.png"
              "File uploaded successfully to https://s3.reily.app/public/id/a.png").
Proof. reflexivity. Qed.

Example upload_file_content_ex :
  (handleUploadFileContent env_ok (ContentArgs.mk "aGVsbG8=" "hello.txt" None) world0).1
  = Normal (ContentResult.mk true "hello.txt" "id" "text/plain" "id/hello.txt"
              "https://s3.reily.app/public/id/hello.txt" 5
              "File content uploaded successfully to https://s3.reily.app/public/id/hello.txt")
  /\ staged_bytes None "aGVsbG8=" = hello.
Proof. split; reflexivity. Qed.

(** ** Base64 *)

Lemma b64_index_char (i : N) : (i < 64)%N -> b64_index (b64_char i) = Some i.
Proof.
  intros Hi. unfold b64_char, b64_index.
  destruct (N.ltb_spec i 26).
  { rewrite N_ascii_embedding by lia.
    replace ((65 <=? 65 + i) && (65 + i <=? 90))%N with true
      by (symmetry; apply andb_true_iff; split; apply N.leb_le; lia).
    f_equal; lia. }
  destruct (N.ltb_spec i 52).
  { rewrite N_ascii_embedding by lia.
    replace ((65 <=? 97 + (i - 26)) && (97 + (i - 26) <=? 90))%N with false
      by (symmetry; apply andb_false_iff; right; apply N.leb_gt; lia).
    replace ((97 <=? 97 + (i - 26)) && (97 + (i - 26) <=? 122))%N with true
      by (symmetry; apply andb_true_iff; split; apply N.leb_le; lia).
    f_equal; lia. }
  destruct (N.ltb_spec i 62).
  { rewrite N_ascii_embedding by lia.
    replace ((65 <=? 48 + (i - 52)) && (48 + (i - 52) <=? 90))%N with false
      by (symmetry; apply andb_false_iff; left; apply N.leb_gt; lia).
    replace ((97 <=? 48 + (i - 52)) && (48 + (i - 52) <=? 122))%N with false
      by (symmetry; apply andb_false_iff; left; apply N.leb_gt; lia).
    replace ((48 <=? 48 + (i - 52)) && (48 + (i - 52) <=? 57))%N with true
      by (symmetry; apply andb_true_iff; split; apply N.leb_le; lia).
    f_equal; lia. }
  destruct (N.eqb_spec i 62) as [->|]; [reflexivity|].
  assert (i = 63%N) as -> by lia. reflexivity.
Qed.

Lemma b64_index_lenient_std (c : ascii) (i : N) :
  b64_index c = Some i -> b64_index_lenient c = Some i.
Proof.
  unfold b64_index_lenient, b64_index.
  destruct (N.eqb_spec (N_of_ascii c) 45) as [->|]; [discriminate|].
  destruct (N.eqb_spec (N_of_ascii c) 95) as [->|]; [discriminate|].
  trivial.
Qed.

Lemma byte_of_to_N (b : Byte.byte) : byte_of_N (Byte.to_N b) = b.
Proof.
  unfold byte_of_N. pose proof (Byte.to_N_bounded b).
  rewrite N.mod_small by lia. now rewrite Byte.of_to_N.
Qed.

Lemma sextet1_lt a : (sextet1 a < 64)%N.
Proof. unfold sextet1. pose proof (Byte.to_N_bounded a). apply N.Div0.div_lt_upper_bound; lia. Qed.

Lemma sextet2_lt a b : (sextet2 a b < 64)%N.
Proof.
  unfold sextet2. pose proof (Byte.to_N_bounded b).
  assert (Byte.to_N b / 16 < 16)%N by (apply N.Div0.div_lt_upper_bound; lia).
  pose proof (N.mod_upper_bound (Byte.to_N a) 4). lia.
Qed.

Lemma sextet3_lt b c : (sextet3 b c < 64)%N.
Proof.
  unfold sextet3. pose proof (Byte.to_N_bounded c).
  assert (Byte.to_N c / 64 < 4)%N by (apply N.Div0.div_lt_upper_bound; lia).
  pose proof (N.mod_upper_bound (Byte.to_N b) 16). lia.
Qed.

Lemma sextet4_lt c : (sextet4 c < 64)%N.
Proof. unfold sextet4. apply N.mod_upper_bound. lia. Qed.

(** The three bytes come back from the four 6-bit values. *)
Lemma join12 a b : byte_of_N (sextet1 a * 4 + sextet2 a b / 16) = a.
Proof.
  rewrite <- (byte_of_to_N a) at 3. f_equal. unfold sextet1, sextet2.
  pose proof (Byte.to_N_bounded a). pose proof (Byte.to_N_bounded b).
  generalize dependent (Byte.to_N a). generalize dependent (Byte.to_N b).
  intros y Hy x Hx.
  assert (y / 16 < 16)%N by (apply N.Div0.div_lt_upper_bound; lia).
  rewrite N.div_add_l by lia. rewrite (N.div_small (y / 16)) by lia.
  pose proof (N.div_mod x 4). lia.
Qed.

Lemma join23 a b c : byte_of_N ((sextet2 a b mod 16) * 16 + sextet3 b c / 4) = b.
Proof.
  rewrite <- (byte_of_to_N b) at 3. f_equal. unfold sextet2, sextet3.
  pose proof (Byte.to_N_bounded b). pose proof (Byte.to_N_bounded c).
  generalize dependent (Byte.to_N a). generalize dependent (Byte.to_N b).
  generalize dependent (Byte.to_N c).
  intros z Hz y Hy x.
  assert (y / 16 < 16)%N by (apply N.Div0.div_lt_upper_bound; lia).
  assert (z / 64 < 4)%N by (apply N.Div0.div_lt_upper_bound; lia).
  rewrite (N.add_comm (x mod 4 * 16)), N.Div0.mod_add, (N.mod_small (y / 16)) by lia.
  rewrite N.div_add_l by lia. rewrite (N.div_small (z / 64)) by lia.
  pose proof (N.div_mod y 16). lia.
Qed.

Lemma join34 b c : byte_of_N ((sextet3 b c mod 4) * 64 + sextet4 c) = c.
Proof.
  rewrite <- (byte_of_to_N c) at 3. f_equal. unfold sextet3, sextet4.
  pose proof (Byte.to_N_bounded c).
  generalize dependent (Byte.to_N b). generalize dependent (Byte.to_N c).
  intros z Hz y.
  assert (z / 64 < 4)%N by (apply N.Div0.div_lt_upper_bound; lia).
  rewrite (N.add_comm (y mod 16 * 4)), N.Div0.mod_add, (N.mod_small (z / 64)) by lia.
  pose proof (N.div_mod z 64). lia.
Qed.

Lemma list_ind3 {A} (P : list A -> Prop) :
  P [] -> (forall a, P [a]) -> (forall a b, P [a; b]) ->
  (forall a b c l, P l -> P (a :: b :: c :: l)) ->
  forall l, P l.
Proof.
  intros H0 H1 H2 H3 l.
  assert (P l /\ (forall a, P (a :: l)) /\ (forall a b, P (a :: b :: l))) as [? _];
    [|assumption].
  induction l as [|x l (IH0 & IH1 & IH2)]; repeat split; auto.
Qed.

Lemma is_pad_eq : b64_index_lenient "="%char = None.
Proof. reflexivity. Qed.

Lemma lenient_char (i : N) : (i < 64)%N -> b64_index_lenient (b64_char i) = Some i.
Proof. intros. now apply b64_index_lenient_std, b64_index_char. Qed.

(** Decoding the groups of an encoding, unpadded, gives the bytes back. *)
Lemma sextets_to_bytes_encode (bs : list Byte.byte) :
  sextets_to_bytes (omap b64_index_lenient (encode_groups bs)) = bs.
Proof.
  induction bs as [|a|a b|a b c l IH] using list_ind3.
  - reflexivity.
  - cbn [encode_groups omap list_omap].
    rewrite !lenient_char by auto using sextet1_lt, sextet2_lt.
    rewrite is_pad_eq. cbn [omap list_omap sextets_to_bytes].
    now rewrite join12.
  - cbn [encode_groups omap list_omap].
    rewrite !lenient_char by auto using sextet1_lt, sextet2_lt, sextet3_lt.
    rewrite is_pad_eq. cbn [omap list_omap sextets_to_bytes].
    now rewrite join12, join23.
  - cbn [encode_groups omap list_omap].
    rewrite !lenient_char by auto using sextet1_lt, sextet2_lt, sextet3_lt, sextet4_lt.
    cbn [sextets_to_bytes].
    now rewrite join12, join23, join34, IH.
Qed.

Lemma chars_str (l : list ascii) : chars (str l) = l.
Proof. apply list_ascii_of_string_of_list_ascii. Qed.

Lemma str_chars (s : string) : str (chars s) = s.
Proof. apply string_of_list_ascii_of_string. Qed.


(** *** The shape of an encoding *)

Lemma b64_char_not_ws (i : N) : (i < 64)%N -> is_ascii_whitespace (b64_char i) = false.
Proof.
  intros Hi. pose proof (b64_index_char i Hi) as H.
  unfold is_ascii_whitespace. unfold b64_index in H.
  destruct (N.eqb_spec (N_of_ascii (b64_char i)) 9) as [e|]; [rewrite e in H; discriminate|].
  destruct (N.eqb_spec (N_of_ascii (b64_char i)) 10) as [e|]; [rewrite e in H; discriminate|].
  destruct (N.eqb_spec (N_of_ascii (b64_char i)) 12) as [e|]; [rewrite e in H; discriminate|].
  destruct (N.eqb_spec (N_of_ascii (b64_char i)) 13) as [e|]; [rewrite e in H; discriminate|].
  destruct (N.eqb_spec (N_of_ascii (b64_char i)) 32) as [e|]; [rewrite e in H; discriminate|].
  reflexivity.
Qed.

Lemma b64_char_not_pad (i : N) : (i < 64)%N -> is_pad (b64_char i) = false.
Proof.
  intros Hi. pose proof (b64_index_char i Hi) as H.
  unfold is_pad. destruct (Ascii.eqb_spec (b64_char i) "=") as [e|]; [|reflexivity].
  rewrite e in H. discriminate.
Qed.

(** An encoding is a run of alphabet characters for 6-bit values that
    decode to the bytes, followed by no, one or two [=], and its length is
    a multiple of four. *)
Lemma encode_groups_shape (bs : list Byte.byte) :
  exists sx pad k,
    encode_groups bs = map b64_char sx ++ pad
    /\ Forall (fun i => (i < 64)%N) sx
    /\ (pad = [] \/ pad = ["="%char] \/ pad = ["="%char; "="%char])
    /\ length sx + length pad = 4 * k
    /\ sextets_to_bytes sx = bs.
Proof.
  induction bs as [|a|a b|a b c l (sx & pad & k & Hl & Hsx & Hpad & Hlen & Hdec)]
    using list_ind3.
  - exists [], [], 0. repeat split; auto.
  - exists [sextet1 a; sextet2 a Byte.x00], ["="%char; "="%char], 1.
    repeat split; auto using sextet1_lt, sextet2_lt.
    cbn [sextets_to_bytes]. now rewrite join12.
  - exists [sextet1 a; sextet2 a b; sextet3 b Byte.x00], ["="%char], 1.
    repeat split; auto using sextet1_lt, sextet2_lt, sextet3_lt.
    cbn [sextets_to_bytes]. now rewrite join12, join23.
  - exists (sextet1 a :: sextet2 a b :: sextet3 b c :: sextet4 c :: sx), pad, (S k).
    repeat split; auto using sextet1_lt, sextet2_lt, sextet3_lt, sextet4_lt.
    + cbn [encode_groups]. rewrite Hl. reflexivity.
    + cbn [length] in *. lia.
    + cbn [sextets_to_bytes]. now rewrite join12, join23, join34, Hdec.
Qed.

Lemma until_pad_app (X rest : list ascii) :
  Forall (fun c => is_pad c = false) X -> until_pad (X ++ rest) = X ++ until_pad rest.
Proof.
  induction 1 as [|c X Hc _ IH]; [reflexivity|].
  cbn [app until_pad]. now rewrite Hc, IH.
Qed.

Lemma omap_lenient_chars (sx : list N) :
  Forall (fun i => (i < 64)%N) sx -> omap b64_index_lenient (map b64_char sx) = sx.
Proof.
  induction 1 as [|i sx Hi _ IH]; [reflexivity|].
  cbn [map omap list_omap]. now rewrite lenient_char, IH.
Qed.

(** [Buffer.from(_, 'base64')] inverts standard base64 encoding. *)
Lemma Buffer_from_base64_encode (bs : list Byte.byte) :
  Buffer_from_base64 (base64_encode bs) = bs.
Proof.
  destruct (encode_groups_shape bs) as (sx & pad & k & Hl & Hsx & Hpad & _ & Hdec).
  unfold Buffer_from_base64, base64_encode. rewrite chars_str, Hl.
  rewrite until_pad_app.
  2:{ apply Forall_fmap. eapply Forall_impl; [exact Hsx|].
      intros i Hi. now apply b64_char_not_pad. }
  assert (until_pad pad = []) as -> by (destruct Hpad as [->|[->| ->]]; reflexivity).
  now rewrite app_nil_r, omap_lenient_chars.
Qed.

Lemma strip_padding_app (X pad : list ascii) :
  Forall (fun c => is_pad c = false) X ->
  pad = [] \/ pad = ["="%char] \/ pad = ["="%char; "="%char] ->
  strip_padding (X ++ pad) = X.
Proof.
  intros HX Hpad. unfold strip_padding.
  destruct Hpad as [->|[->| ->]].
  - rewrite app_nil_r.
    destruct (rev X) as [|c1 r] eqn:E; [reflexivity|].
    assert (is_pad c1 = false) as Hc1.
    { eapply Forall_forall in HX; [exact HX|].
      apply list_elem_of_In, in_rev. rewrite E. now left. }
    rewrite Hc1. now destruct r.
  - rewrite rev_app_distr. cbn [rev app].
    destruct (rev X) as [|c2 r] eqn:E.
    + apply (f_equal (@rev ascii)) in E. rewrite rev_involutive in E. now subst.
    + assert (is_pad c2 = false) as Hc2.
      { eapply Forall_forall in HX; [exact HX|].
        apply list_elem_of_In, in_rev. rewrite E. now left. }
      change (is_pad "=") with true. cbv iota. rewrite Hc2.
      change (rev r ++ [c2]) with (rev (c2 :: r)).
      rewrite <- E. apply rev_involutive.
  - rewrite rev_app_distr. cbn [rev app].
    change (is_pad "=") with true. cbv iota. apply rev_involutive.
Qed.

(** [atob] accepts every standard encoding and decodes it to the bytes. *)
Lemma atob_encode (bs : list Byte.byte) : atob (base64_encode bs) = Some bs.
Proof.
  destruct (encode_groups_shape bs) as (sx & pad & k & Hl & Hsx & Hpad & Hlen & Hdec).
  unfold atob, base64_encode. rewrite chars_str, Hl.
  assert (Forall (fun c => is_ascii_whitespace c = false) (map b64_char sx ++ pad)) as Hws.
  { apply Forall_app; split.
    - apply Forall_fmap. eapply Forall_impl; [exact Hsx|].
      intros i Hi. now apply b64_char_not_ws.
    - destruct Hpad as [->|[->| ->]]; repeat constructor. }
  assert (filter (fun c => is_ascii_whitespace c = false) (map b64_char sx ++ pad)
          = map b64_char sx ++ pad) as ->.
  { clear -Hws. induction Hws as [|c l Hc _ IH]; [reflexivity|].
    rewrite filter_cons_True by exact Hc. now rewrite IH. }
  assert (length (map b64_char sx ++ pad) = 4 * k) as Hlen'.
  { now rewrite length_app, length_map. }
  replace (Nat.eqb (length (map b64_char sx ++ pad) mod 4) 0) with true
    by (symmetry; apply Nat.eqb_eq; lia).
  rewrite strip_padding_app; [| |exact Hpad].
  2:{ apply Forall_fmap. eapply Forall_impl; [exact Hsx|].
      intros i Hi. now apply b64_char_not_pad. }
  replace (Nat.eqb (length (map b64_char sx) mod 4) 1) with false.
  2:{ symmetry. apply Nat.eqb_neq. rewrite length_map.
      destruct Hpad as [->|[->| ->]]; cbn [length] in Hlen; lia. }
  assert (mapM b64_index (map b64_char sx) = Some sx) as ->.
  { apply mapM_Some. apply Forall2_fmap_l.
    clear -Hsx. induction Hsx; constructor; auto using b64_index_char. }
  now rewrite Hdec.
Qed.

(** The first [4k] characters of an encoding encode the first [3k]
    bytes. *)
Lemma take_encode_groups (k : nat) (bs : list Byte.byte) :
  take (4 * k) (encode_groups bs) = encode_groups (take (3 * k) bs).
Proof.
  revert bs. induction k as [|k IH]; intros bs.
  - reflexivity.
  - replace (4 * S k) with (S (S (S (S (4 * k))))) by lia.
    replace (3 * S k) with (S (S (S (3 * k)))) by lia.
    destruct bs as [|a [|b [|c rest]]].
    + reflexivity.
    + cbn [encode_groups take]. now rewrite !take_nil.
    + cbn [encode_groups take]. now rewrite !take_nil.
    + cbn [encode_groups take]. now rewrite IH.
Qed.

Lemma slice_prefix (n : nat) (l : list ascii) : slice 0 n (str l) = str (take n l).
Proof. unfold slice. now rewrite chars_str, Nat.sub_0_r. Qed.

(** The bounded prefix check accepts every standard encoding. *)
Lemma atob_prefix_encode (bs : list Byte.byte) :
  atob (slice 0 100 (base64_encode bs)) = Some (take 75 bs).
Proof.
  unfold base64_encode. rewrite slice_prefix.
  change 100 with (4 * 25). rewrite take_encode_groups.
  apply atob_encode.
Qed.

Lemma encode_groups_alphabet (bs : list Byte.byte) :
  Forall (fun c => b64_or_pad c = true) (encode_groups bs).
Proof.
  destruct (encode_groups_shape bs) as (sx & pad & k & Hl & Hsx & Hpad & _).
  rewrite Hl. apply Forall_app; split.
  - apply Forall_fmap. eapply Forall_impl; [exact Hsx|].
    intros i Hi. cbn. unfold b64_or_pad. now rewrite b64_index_char.
  - destruct Hpad as [->|[->| ->]]; repeat constructor.
Qed.

Lemma prefix_data (l : list ascii) :
  String.prefix "data:" (str l) = true ->
  exists r, l = "d"%char :: "a"%char :: "t"%char :: "a"%char :: ":"%char :: r.
Proof.
  unfold str.
  destruct l as [|c1 [|c2 [|c3 [|c4 [|c5 r]]]]];
    cbn [string_of_list_ascii String.prefix];
    repeat match goal with
           | |- context [ascii_dec ?a ?b] => destruct (ascii_dec a b); subst
           end; try discriminate.
  intros _. now exists r.
Qed.

(** An encoding never starts with [data:], so the inline-data block leaves
    it alone. *)
Lemma strip_data_url_encode (mime : option string) (bs : list Byte.byte) :
  strip_data_url mime (base64_encode bs) = (mime, base64_encode bs).
Proof.
  unfold strip_data_url.
  destruct (String.prefix "data:" (base64_encode bs)) eqn:E; [|reflexivity].
  apply prefix_data in E as [r Hr].
  pose proof (encode_groups_alphabet bs) as H. rewrite Hr in H.
  do 4 (apply Forall_cons in H as [_ H]). apply Forall_cons in H as [H _].
  discriminate.
Qed.

Lemma truthy_encode (bs : list Byte.byte) : bs <> [] -> truthy (base64_encode bs) = true.
Proof.
  destruct bs as [|a [|b [|c rest]]]; [congruence| | |]; intros _; reflexivity.
Qed.

(** ** The handlers, case by case *)

Lemma handleUploadFile_unfold (E : Env) (args : FileArgs.t) (w : World) :
  handleUploadFile E args w =
  let path := FileArgs.file_path args in
  if truthy path then
    match files w !! path with
    | None =>
        (Abrupt (McpError InternalError
                   ("Failed to upload file: "
                    +:+ message_of (McpError InvalidParams ("File not found: " +:+ path)))),
         record (EvExists path) w)
    | Some _ =>
        let w' := mkWorld (files w) (S (draws w))
                    (trace w ++ [EvExists path; EvRandomUUID (folder_of E w);
                                 EvSpawn (file_command E w args)]) in
        match spawn_outcome E (file_command E w args) with
        | SpawnThrows msg =>
            (Abrupt (McpError InternalError ("Failed to upload file: " +:+ msg)), w')
        | Exited code out err =>
            if (code =? 0)%Z then
              (Normal (FileResult.mk true path (folder_of E w) (basename path)
                         (or_else (FileArgs.content_type args) (detectContentType path))
                         (remote_of E w path)
                         ("https://s3.reily.app/public/" +:+ remote_of E w path)
                         ("File uploaded successfully to "
                          +:+ ("https://s3.reily.app/public/" +:+ remote_of E w path))),
               w')
            else
              (Abrupt (McpError InternalError
                         ("Failed to upload file: " +:+ ("Upload failed: " +:+ err))),
               w')
        end
    end
  else (Abrupt (McpError InvalidParams "file_path is required"), w).
Proof.
  destruct args as [path ct]. unfold handleUploadFile, file_command, remote_of, folder_of.
  cbn [FileArgs.file_path FileArgs.content_type].
  destruct (truthy path); cbn [negb]; [|reflexivity].
  unfold try_catch, bind, Bun_file_exists, randomUUID, Bun_spawn, record, throw, ret.
  cbn [files draws trace].
  destruct (files w !! path); cbn [negb files draws trace]; [|reflexivity].
  rewrite <- !app_assoc. cbn [app].
  destruct (spawn_outcome E _) as [code out err|msg];
    cbn [files draws trace message_of]; [|reflexivity].
  destruct (code =? 0)%Z; reflexivity.
Qed.

Lemma handleUploadFileContent_unfold (E : Env) (args : ContentArgs.t) (w : World) :
  handleUploadFileContent E args w =
  let content := ContentArgs.content args in
  let filename := ContentArgs.filename args in
  let mime := ContentArgs.mime_type args in
  let id := folder_of E w in
  let tmp := staged_path E w filename in
  let buf := staged_bytes mime content in
  let cmd := content_command E w args in
  let fail msg := Abrupt (McpError InternalError ("Failed to upload file content: " +:+ msg)) in
  if truthy content && truthy filename then
    match atob (slice 0 100 (payload_of mime content)) with
    | None =>
        (fail (message_of (McpError InvalidParams "Invalid base64 content provided")), w)
    | Some _ =>
        match write_throws E tmp buf with
        | Some failure =>
            (fail (write_message failure),
             mkWorld (match left_behind failure with
                      | Some partial => <[tmp := partial]> (files w)
                      | None => files w
                      end)
               (S (draws w)) (trace w ++ [EvRandomUUID id; EvWrite tmp buf]))
        | None =>
            match spawn_outcome E cmd with
            | SpawnThrows msg =>
                (fail msg,
                 mkWorld (<[tmp := buf]> (files w)) (S (draws w))
                   (trace w ++ [EvRandomUUID id; EvWrite tmp buf; EvSpawn cmd]))
            | Exited code out err =>
                (if (code =? 0)%Z then
                   Normal (ContentResult.mk true (basename filename) id
                             (content_type_sent mime content filename)
                             (remote_of E w filename)
                             ("https://s3.reily.app/public/" +:+ remote_of E w filename)
                             (length buf)
                             ("File content uploaded successfully to "
                              +:+ ("https://s3.reily.app/public/" +:+ remote_of E w filename)))
                 else fail ("Upload failed: " +:+ err),
                 match delete_throws E tmp with
                 | None =>
                     mkWorld (delete tmp (<[tmp := buf]> (files w))) (S (draws w))
                       (trace w ++ [EvRandomUUID id; EvWrite tmp buf; EvSpawn cmd;
                                    EvDelete tmp])
                 | Some msg =>
                     mkWorld (<[tmp := buf]> (files w)) (S (draws w))
                       (trace w ++ [EvRandomUUID id; EvWrite tmp buf; EvSpawn cmd;
                                    EvDelete tmp;
                                    EvConsoleError "Warning: Failed to clean up temporary file:" msg])
                 end)
            end
        end
    end
  else (Abrupt (McpError InvalidParams "content and filename are required"), w).
Proof.
  destruct args as [content filename mime].
  unfold handleUploadFileContent, content_command, content_type_sent, staged_bytes,
    payload_of, staged_path, remote_of, folder_of.
  cbn [ContentArgs.content ContentArgs.filename ContentArgs.mime_type].
  destruct (truthy content); cbn [negb orb andb]; [|reflexivity].
  destruct (truthy filename); cbn [negb orb andb]; [|reflexivity].
  destruct (strip_data_url mime content) as [mt b64]. cbn [fst snd].
  unfold try_catch at 1 2. unfold bind at 1. unfold js_atob.
  destruct (atob (slice 0 100 b64)); [|reflexivity].
  unfold ret at 1.
  unfold try_catch, bind, randomUUID, Bun_write, Bun_spawn, Bun_file_delete,
    console_error, record, throw, ret.
  cbn [files draws trace].
  destruct (write_throws E _ _); [rewrite <- !app_assoc; reflexivity|].
  cbn [files draws trace].
  destruct (spawn_outcome E _) as [code out err|msg];
    [|rewrite <- !app_assoc; reflexivity].
  cbn [files draws trace].
  destruct (delete_throws E _); cbn [files draws trace message_of];
    rewrite <- !app_assoc; cbn [app];
    destruct (code =? 0)%Z; reflexivity.
Qed.

(** ** Strings *)

Lemma append_nil_r (s : string) : s +:+ "" = s.
Proof.
  induction s as [|c s IH]; [reflexivity|].
  change (String c s +:+ "") with (String c (s +:+ "")). now f_equal.
Qed.

Lemma append_assoc (a b c : string) : (a +:+ b) +:+ c = a +:+ (b +:+ c).
Proof.
  induction a as [|x a IH]; [reflexivity|].
  change (String x ((a +:+ b) +:+ c) = String x (a +:+ (b +:+ c))). now f_equal.
Qed.

Lemma mentions_suffix (pre part : string) : mentions (pre +:+ part) part.
Proof. exists pre, "". now rewrite append_nil_r. Qed.

Lemma mentions_append_l (pre msg part : string) :
  mentions msg part -> mentions (pre +:+ msg) part.
Proof.
  intros (a & b & ->). exists (pre +:+ a), b. now rewrite append_assoc.
Qed.

Lemma chars_append (a b : string) : chars (a +:+ b) = chars a ++ chars b.
Proof.
  unfold chars. induction a as [|c a IH]; [reflexivity|].
  change (String c a +:+ b) with (String c (a +:+ b)).
  cbn [list_ascii_of_string app]. now f_equal.
Qed.

Lemma str_app (a b : list ascii) : str (a ++ b) = str a +:+ str b.
Proof.
  rewrite <- (str_chars (str a +:+ str b)), chars_append, !chars_str. reflexivity.
Qed.

Lemma truthy_str (l : list ascii) : l <> [] -> truthy (str l) = true.
Proof. destruct l; [congruence|reflexivity]. Qed.

(** ** The inline-data prefix *)

Lemma strip_prefix_app (p l r : list ascii) : strip_prefix p l = Some r -> l = p ++ r.
Proof.
  revert l. induction p as [|a p IH]; intros l H.
  - cbn in H. now injection H as ->.
  - destruct l as [|b l]; [discriminate|]. cbn [strip_prefix] in H.
    destruct (Ascii.eqb_spec a b) as [->|]; [|discriminate].
    cbn [app]. f_equal. now apply IH.
Qed.

Lemma lazy_group_eq (acc rest : list ascii) :
  lazy_group acc rest =
  let extend :=
    match rest with
    | c :: rest' =>
        if is_line_terminator c then None else lazy_group (c :: acc) rest'
    | [] => None
    end in
  match strip_prefix (chars ";base64,") rest with
  | Some payload =>
      if dot_plus_to_end payload then Some (rev acc, payload) else extend
  | None => extend
  end.
Proof. destruct rest; reflexivity. Qed.

(** Group 1 of a match is never empty: [.+?] takes at least one
    character. *)
Lemma lazy_group_nonempty (rest acc m p : list ascii) :
  acc <> [] -> lazy_group acc rest = Some (m, p) -> m <> [].
Proof.
  revert acc. induction rest as [|c rest IH]; intros acc Hacc H;
    rewrite lazy_group_eq in H; cbv zeta in H.
  - destruct (strip_prefix _ _) as [payload|]; [|discriminate].
    destruct (dot_plus_to_end payload); [|discriminate].
    injection H as <- _. intros E. apply (f_equal (@rev ascii)) in E.
    rewrite rev_involutive in E. contradiction.
  - assert (lazy_group (c :: acc) rest = Some (m, p) -> m <> []) as Hext
      by (apply IH; discriminate).
    destruct (strip_prefix _ _) as [payload|].
    + destruct (dot_plus_to_end payload).
      * injection H as <- _. intros E. apply (f_equal (@rev ascii)) in E.
        rewrite rev_involutive in E. contradiction.
      * destruct (is_line_terminator c); [discriminate|auto].
    + destruct (is_line_terminator c); [discriminate|auto].
Qed.

Lemma match_data_url_Some (s m p : string) :
  match_data_url s = Some (m, p) ->
  String.prefix "data:" s = true /\ truthy m = true.
Proof.
  unfold match_data_url. intros H.
  destruct (strip_prefix (chars "data:") (chars s)) as [[|c rest]|] eqn:E;
    try discriminate.
  apply strip_prefix_app in E.
  destruct (is_line_terminator c); [discriminate|].
  destruct (lazy_group [c] rest) as [[m' p']|] eqn:G; [|discriminate].
  injection H as <- <-. split.
  - rewrite <- (str_chars s), E. reflexivity.
  - apply truthy_str. eapply lazy_group_nonempty; [|exact G]. discriminate.
Qed.

(** ** The tables hold no empty type *)

Lemma contentMimeMap_truthy (k v : string) :
  contentMimeMap !! k = Some v -> truthy v = true.
Proof.
  unfold contentMimeMap. intros H. apply elem_of_list_to_map_2 in H.
  repeat (apply elem_of_cons in H as [H|H]; [injection H as -> ->; reflexivity|]).
  inversion H.
Qed.

Lemma mimeMap_truthy (k v : string) : mimeMap !! k = Some v -> truthy v = true.
Proof.
  unfold mimeMap. intros H. apply elem_of_list_to_map_2 in H.
  repeat (apply elem_of_cons in H as [H|H]; [injection H as -> ->; reflexivity|]).
  inversion H.
Qed.

(** The type the handler sends is the one the precedence rule names. *)
Lemma content_type_sent_precedence (mime : option string) (content filename : string) :
  content_type_sent mime content filename = mime_precedence mime content filename.
Proof.
  unfold content_type_sent, mime_precedence, strip_data_url.
  destruct (match_data_url content) as [[m1 m2]|] eqn:Hm.
  - apply match_data_url_Some in Hm as [-> Hm1]. cbn [fst].
    destruct mime as [[|c m]|]; cbn [or_else truthy]; now rewrite ?Hm1.
  - assert ((if String.prefix "data:" content then (mime, content) else (mime, content))
            = (mime, content)) as -> by now destruct (String.prefix _ _).
    cbn [fst]. unfold detectContentMimeType.
    destruct mime as [[|c m]|]; cbn [or_else truthy]; try reflexivity;
      destruct (contentMimeMap !! _) as [t|] eqn:Ht; cbn [or_else];
      try reflexivity; now rewrite (contentMimeMap_truthy _ _ Ht).
Qed.

(** ** Traces *)

Lemma transfers_app (a b : list Event) : transfers (a ++ b) = transfers a + transfers b.
Proof. induction a as [|ev a IH]; cbn [app transfers]; [reflexivity|lia]. Qed.

Lemma writes_app (a b : list Event) : writes (a ++ b) = writes a + writes b.
Proof. induction a as [|ev a IH]; cbn [app writes]; [reflexivity|lia]. Qed.

Ltac elem_cases H :=
  repeat (apply elem_of_cons in H as [H|H]); [..|inversion H]; try discriminate.

(** * The claims *)

(** ** C1: a path that names no file *)

(** C1 (what the code does): for a non-empty path that names no file,
    [handleUploadFile] builds the InvalidParams error "File not found:
    <path>" but the enclosing [catch] re-throws it as an InternalError whose
    message embeds the text of the first; the message mentions the path, the
    only effect is the existence check, and no transfer is started. *)
Theorem C1_missing_file_rethrown_as_InternalError
  (E : Env) (path : string) (ct : option string) (w : World) :
  truthy path = true ->
  files w !! path = None ->
  exists msg,
    handleUploadFile E (FileArgs.mk path ct) w
    = (Abrupt (Mcp InternalError msg), record (EvExists path) w)
    /\ msg = "MCP error -32603: Failed to upload file: MCP error -32602: File not found: "
             +:+ path
    /\ mentions msg path
    /\ transfers (trace (record (EvExists path) w)) = transfers (trace w).
Proof.
  intros Hpath Hfile. eexists. split; [|split; [reflexivity|split]].
  - rewrite handleUploadFile_unfold. cbn [FileArgs.file_path].
    cbv zeta. rewrite Hpath, Hfile. reflexivity.
  - apply mentions_suffix.
  - cbn [record trace]. rewrite transfers_app. cbn [transfers is_spawn]. lia.
Qed.

Lemma C1_missing_file_witness :
  truthy "/tmp/missing.png" = true
  /\ files world0 !! "/tmp/missing.png" = None
  /\ exists msg,
       handleUploadFile env_ok (FileArgs.mk "/tmp/missing.png" None) world0
       = (Abrupt (Mcp InternalError msg), record (EvExists "/tmp/missing.png") world0)
       /\ msg = "MCP error -32603: Failed to upload file: MCP error -32602: File not found: "
                +:+ "/tmp/missing.png"
       /\ mentions msg "/tmp/missing.png"
       /\ transfers (trace (record (EvExists "/tmp/missing.png") world0))
          = transfers (trace world0).
Proof.
  split; [reflexivity|]. split; [reflexivity|].
  apply (C1_missing_file_rethrown_as_InternalError env_ok "/tmp/missing.png" None world0);
    reflexivity.
Defined.

(** ** C2: malformed base64 *)

(** C2 (what the code does): when [atob] rejects the first 100 characters
    of the payload, [handleUploadFileContent] builds the InvalidParams error
    "Invalid base64 content provided" but the enclosing [catch] re-throws it
    as an InternalError; the world is left as it was, so no identifier is
    drawn and no temporary file is written. *)
Theorem C2_malformed_base64_rethrown_as_InternalError
  (E : Env) (content filename : string) (mime : option string) (w : World) :
  truthy content = true ->
  truthy filename = true ->
  atob (slice 0 100 (payload_of mime content)) = None ->
  handleUploadFileContent E (ContentArgs.mk content filename mime) w
  = (Abrupt (Mcp InternalError
       "MCP error -32603: Failed to upload file content: MCP error -32602: Invalid base64 content provided"),
     w).
Proof.
  intros Hc Hf Hatob. rewrite handleUploadFileContent_unfold.
  cbn [ContentArgs.content ContentArgs.filename ContentArgs.mime_type]. cbv zeta.
  rewrite Hc, Hf, Hatob. reflexivity.
Qed.

Lemma C2_malformed_base64_witness :
  truthy "!!!not-base64!!!" = true
  /\ truthy "note.txt" = true
  /\ atob (slice 0 100 (payload_of None "!!!not-base64!!!")) = None
  /\ handleUploadFileContent env_ok (ContentArgs.mk "!!!not-base64!!!" "note.txt" None) world0
     = (Abrupt (Mcp InternalError
          "MCP error -32603: Failed to upload file content: MCP error -32602: Invalid base64 content provided"),
        world0).
Proof.
  split; [reflexivity|]. split; [reflexivity|]. split; [reflexivity|].
  apply (C2_malformed_base64_rethrown_as_InternalError env_ok "!!!not-base64!!!" "note.txt"
           None world0); reflexivity.
Defined.

(** ** C3: cleanup of the staged file *)

(** C3 (counterexample): a call stages [/tmp/id_hello.txt], curl exits
    with status 0, the deletion throws; the call succeeds, a warning is
    logged, and the staged file is still on disk afterwards. *)
Lemma C3_failed_cleanup_leaves_staged_file :
  (handleUploadFileContent env_delete_fails
     (ContentArgs.mk "aGVsbG8=" "hello.txt" None) world0).1
  = Normal (ContentResult.mk true "hello.txt" "id" "text/plain" "id/hello.txt"
              "https://s3.reily.app/public/id/hello.txt" 5
              "File content uploaded successfully to https://s3.reily.app/public/id/hello.txt")
  /\ trace (handleUploadFileContent env_delete_fails
              (ContentArgs.mk "aGVsbG8=" "hello.txt" None) world0).2
     = [EvRandomUUID "id";
        EvWrite "/tmp/id_hello.txt" hello;
        EvSpawn (uploadCommand "id/hello.txt" "/tmp/id_hello.txt" "text/plain");
        EvDelete "/tmp/id_hello.txt";
        EvConsoleError "Warning: Failed to clean up temporary file:"
          "EPERM: operation not permitted, unlink"]
  /\ files (handleUploadFileContent env_delete_fails
              (ContentArgs.mk "aGVsbG8=" "hello.txt" None) world0).2
       !! "/tmp/id_hello.txt"
     = Some hello.
Proof. vm_compute. repeat split; reflexivity. Qed.

(** C3 (amended): when a call of [handleUploadFileContent] has staged its
    file and the curl process has exited, with whatever status, the next
    effect is the attempt to delete the staged file; a deletion that throws
    adds one warning to the log and nothing else; the completion of the call
    is the same however the deletion ends; and when the deletion succeeds
    the staged file is no longer on disk. *)
Theorem C3_cleanup_is_attempted_and_best_effort
  (E : Env) (args : ContentArgs.t) (w : World)
  (x : list Byte.byte) (code : Z) (out err : string) :
  truthy (ContentArgs.content args) = true ->
  truthy (ContentArgs.filename args) = true ->
  atob (slice 0 100 (payload_of (ContentArgs.mime_type args) (ContentArgs.content args)))
  = Some x ->
  write_throws E (staged_path E w (ContentArgs.filename args))
    (staged_bytes (ContentArgs.mime_type args) (ContentArgs.content args)) = None ->
  spawn_outcome E (content_command E w args) = Exited code out err ->
  let tmp := staged_path E w (ContentArgs.filename args) in
  let run := handleUploadFileContent E args w in
  trace run.2
  = trace w
    ++ [EvRandomUUID (folder_of E w);
        EvWrite tmp (staged_bytes (ContentArgs.mime_type args) (ContentArgs.content args));
        EvSpawn (content_command E w args);
        EvDelete tmp]
    ++ match delete_throws E tmp with
       | None => []
       | Some msg => [EvConsoleError "Warning: Failed to clean up temporary file:" msg]
       end
  /\ (forall d, (handleUploadFileContent (with_delete E d) args w).1 = run.1)
  /\ (delete_throws E tmp = None -> files run.2 !! tmp = None).
Proof.
  intros Hc Hf Hatob Hwrite Hspawn tmp run. subst run tmp.
  split; [|split].
  - rewrite handleUploadFileContent_unfold. cbv zeta.
    rewrite Hc, Hf, Hatob, Hwrite, Hspawn. cbn [andb snd trace].
    destruct (delete_throws E _); cbn [trace]; rewrite <- ?app_assoc; reflexivity.
  - intros d. rewrite !handleUploadFileContent_unfold. cbv zeta.
    change (staged_path (with_delete E d) w) with (staged_path E w).
    change (content_command (with_delete E d) w) with (content_command E w).
    change (remote_of (with_delete E d) w) with (remote_of E w).
    change (folder_of (with_delete E d) w) with (folder_of E w).
    change (write_throws (with_delete E d)) with (write_throws E).
    change (spawn_outcome (with_delete E d)) with (spawn_outcome E).
    rewrite Hc, Hf, Hatob, Hwrite, Hspawn. reflexivity.
  - intros Hdel. rewrite handleUploadFileContent_unfold. cbv zeta.
    rewrite Hc, Hf, Hatob, Hwrite, Hspawn, Hdel. cbn [andb snd files].
    apply lookup_delete_eq.
Qed.

Lemma C3_cleanup_witness :
  let args := ContentArgs.mk "aGVsbG8=" "hello.txt" None in
  let tmp := "/tmp/id_hello.txt" in
  let run := handleUploadFileContent env_curl_fails args world0 in
  trace run.2
  = [EvRandomUUID "id"; EvWrite tmp hello;
     EvSpawn (uploadCommand "id/hello.txt" tmp "text/plain"); EvDelete tmp]
  /\ (forall d, (handleUploadFileContent (with_delete env_curl_fails d) args world0).1 = run.1)
  /\ (delete_throws env_curl_fails tmp = None -> files run.2 !! tmp = None).
Proof.
  exact (C3_cleanup_is_attempted_and_best_effort env_curl_fails
           (ContentArgs.mk "aGVsbG8=" "hello.txt" None) world0 hello 22 ""
           "curl: (22) The requested URL returned error: 403"
           eq_refl eq_refl eq_refl eq_refl eq_refl).
Defined.

(** ** C4: precedence of MIME types *)

(** C4: in every call of [handleUploadFileContent], each curl invocation
    carries, and a success result reports, the type named by
    [mime_precedence]: the explicit argument when present and not empty,
    else the type of the inline-data prefix, else the table entry of the
    lower-cased extension, else [application/octet-stream]. *)
Theorem C4_mime_type_follows_precedence (E : Env) (args : ContentArgs.t) (w : World) :
  let run := handleUploadFileContent E args w in
  let resolved :=
    mime_precedence (ContentArgs.mime_type args) (ContentArgs.content args)
      (ContentArgs.filename args) in
  (forall r, run.1 = Normal r -> ContentResult.mime_type r = resolved)
  /\ exists evs,
       trace run.2 = trace w ++ evs
       /\ forall cmd, EvSpawn cmd ∈ evs ->
            cmd = uploadCommand (remote_of E w (ContentArgs.filename args))
                    (staged_path E w (ContentArgs.filename args)) resolved
            /\ cmd !! 7 = Some ("Content-Type: " +:+ resolved).
Proof.
  intros run resolved. subst run resolved.
  rewrite handleUploadFileContent_unfold. cbv zeta.
  unfold content_command. rewrite !content_type_sent_precedence.
  destruct (truthy _ && truthy _).
  2:{ split; [discriminate|]. exists []. split; [now rewrite app_nil_r|].
      intros cmd H. inversion H. }
  destruct (atob _).
  2:{ split; [discriminate|]. exists []. split; [now rewrite app_nil_r|].
      intros cmd H. inversion H. }
  destruct (write_throws E _ _).
  { split; [discriminate|]. eexists. split; [reflexivity|].
    intros cmd H. elem_cases H. }
  destruct (spawn_outcome E _) as [code out err|msg].
  2:{ split; [discriminate|]. eexists. split; [reflexivity|].
      intros cmd H. elem_cases H. injection H as ->. split; reflexivity. }
  split.
  - cbn [fst]. destruct (code =? 0)%Z; [|discriminate].
    intros r Hr. injection Hr as <-. reflexivity.
  - cbn [snd]. destruct (delete_throws E _); eexists; (split; [reflexivity|]);
      intros cmd H; elem_cases H; injection H as ->; split; reflexivity.
Qed.

Lemma C4_precedence_witness :
  (exists r,
     (handleUploadFileContent env_ok
        (ContentArgs.mk "data:image/png;base64,aGVsbG8=" "hello.txt" (Some "text/css"))
        world0).1 = Normal r
     /\ ContentResult.mime_type r = "text/css")
  /\ (exists r,
        (handleUploadFileContent env_ok
           (ContentArgs.mk "data:image/png;base64,aGVsbG8=" "hello.txt" None) world0).1
        = Normal r
        /\ ContentResult.mime_type r = "image/png")
  /\ (exists r,
        (handleUploadFileContent env_ok
           (ContentArgs.mk "aGVsbG8=" "hello.TXT" (Some "")) world0).1 = Normal r
        /\ ContentResult.mime_type r = "text/plain")
  /\ (exists r,
        (handleUploadFileContent env_ok
           (ContentArgs.mk "aGVsbG8=" "hello.svg" None) world0).1 = Normal r
        /\ ContentResult.mime_type r = "application/octet-stream").
Proof.
  repeat split; (eexists; split; [reflexivity|]).
  - exact (proj1 (C4_mime_type_follows_precedence env_ok
             (ContentArgs.mk "data:image/png;base64,aGVsbG8=" "hello.txt" (Some "text/css"))
             world0) _ eq_refl).
  - exact (proj1 (C4_mime_type_follows_precedence env_ok
             (ContentArgs.mk "data:image/png;base64,aGVsbG8=" "hello.txt" None) world0)
             _ eq_refl).
  - exact (proj1 (C4_mime_type_follows_precedence env_ok
             (ContentArgs.mk "aGVsbG8=" "hello.TXT" (Some "")) world0) _ eq_refl).
  - exact (proj1 (C4_mime_type_follows_precedence env_ok
             (ContentArgs.mk "aGVsbG8=" "hello.svg" None) world0) _ eq_refl).
Defined.

(** ** What a successful call returns *)

Lemma handleUploadFile_success (E : Env) (args : FileArgs.t) (w : World)
  (r : FileResult.t) (w' : World) :
  handleUploadFile E args w = (Normal r, w') ->
  r = FileResult.mk true (FileArgs.file_path args) (folder_of E w)
        (basename (FileArgs.file_path args))
        (or_else (FileArgs.content_type args) (detectContentType (FileArgs.file_path args)))
        (remote_of E w (FileArgs.file_path args))
        ("https://s3.reily.app/public/" +:+ remote_of E w (FileArgs.file_path args))
        ("File uploaded successfully to "
         +:+ ("https://s3.reily.app/public/" +:+ remote_of E w (FileArgs.file_path args)))
  /\ w' = mkWorld (files w) (S (draws w))
            (trace w ++ [EvExists (FileArgs.file_path args); EvRandomUUID (folder_of E w);
                         EvSpawn (file_command E w args)]).
Proof.
  rewrite handleUploadFile_unfold. cbv zeta.
  destruct (truthy _); [|discriminate].
  destruct (files w !! _); [|discriminate].
  destruct (spawn_outcome E _) as [code out err|msg]; [|discriminate].
  destruct (code =? 0)%Z; [|discriminate].
  intros H. injection H as <- <-. split; reflexivity.
Qed.

Lemma handleUploadFile_draws (E : Env) (args : FileArgs.t) (w : World) :
  draws w <= draws (handleUploadFile E args w).2.
Proof.
  rewrite handleUploadFile_unfold. cbv zeta.
  destruct (truthy _); [|cbn; lia].
  destruct (files w !! _); [|cbn; lia].
  destruct (spawn_outcome E _) as [code out err|msg]; [|cbn; lia].
  destruct (code =? 0)%Z; cbn; lia.
Qed.

Lemma handleUploadFileContent_draws (E : Env) (args : ContentArgs.t) (w : World) :
  draws w <= draws (handleUploadFileContent E args w).2.
Proof.
  rewrite handleUploadFileContent_unfold. cbv zeta.
  destruct (truthy _ && truthy _); [|cbn; lia].
  destruct (atob _); [|cbn; lia].
  destruct (write_throws E _ _); [cbn; lia|].
  destruct (spawn_outcome E _) as [code out err|msg]; [|cbn; lia].
  destruct (delete_throws E _); cbn; lia.
Qed.

(** ** C5: the destination key of [upload_file] *)

(** C5: a call of [handleUploadFile] on a path that names a file, with
    curl exiting with status 0, succeeds; its folder identifier is the value
    [randomUUID()] yields at this call's draw; the destination key is
    [<folderId>/<basename(path)>] and the URL is
    [https://s3.reily.app/public/<folderId>/<basename(path)>].  When the
    identifier source never repeats, every later successful call has another
    folder identifier. *)
Theorem C5_destination_key_and_url
  (E : Env) (args : FileArgs.t) (w : World) (bytes : list Byte.byte) (out err : string) :
  truthy (FileArgs.file_path args) = true ->
  files w !! FileArgs.file_path args = Some bytes ->
  spawn_outcome E (file_command E w args) = Exited 0 out err ->
  exists r w',
    handleUploadFile E args w = (Normal r, w')
    /\ FileResult.folder_id r = uuid_source E (draws w)
    /\ draws w' = S (draws w)
    /\ FileResult.remote_path r
       = FileResult.folder_id r +:+ "/" +:+ basename (FileArgs.file_path args)
    /\ FileResult.url r
       = "https://s3.reily.app/public/"
         +:+ (FileResult.folder_id r +:+ "/" +:+ basename (FileArgs.file_path args))
    /\ (never_repeats E ->
        forall args2 w2 r2 w2',
          draws w' <= draws w2 ->
          handleUploadFile E args2 w2 = (Normal r2, w2') ->
          FileResult.folder_id r2 <> FileResult.folder_id r).
Proof.
  intros Hpath Hfile Hspawn. eexists. eexists. split.
  { rewrite handleUploadFile_unfold. cbv zeta. rewrite Hpath, Hfile, Hspawn. reflexivity. }
  cbn [FileResult.folder_id FileResult.remote_path FileResult.url draws].
  repeat split.
  intros Hfresh args2 w2 r2 w2' Hlater H2 Heq.
  apply handleUploadFile_success in H2 as [-> _].
  cbn [FileResult.folder_id] in Heq. unfold folder_of in Heq.
  apply Hfresh in Heq. lia.
Qed.

Lemma never_repeats_env_ok : never_repeats env_ok.
Proof.
  intros i j H. cbn [uuid_source env_ok] in H.
  apply (f_equal String.length) in H.
  change ("id" +:+ ?s) with (String "i" (String "d" s)) in H.
  cbn [String.length] in H.
  assert (forall n, String.length (str (repeat "x"%char n)) = n) as Hlen.
  { unfold str. induction n as [|n IH]; [reflexivity|].
    cbn [repeat string_of_list_ascii String.length]. now rewrite IH. }
  rewrite !Hlen in H. lia.
Qed.

Lemma C5_destination_key_witness :
  exists r w',
    handleUploadFile env_ok (FileArgs.mk "/tmp/a.png" None) world0 = (Normal r, w')
    /\ FileResult.folder_id r = "id"
    /\ draws w' = 1
    /\ FileResult.remote_path r = FileResult.folder_id r +:+ "/" +:+ "a.png"
    /\ FileResult.url r
       = "https://s3.reily.app/public/" +:+ (FileResult.folder_id r +:+ "/" +:+ "a.png")
    /\ (forall args2 w2 r2 w2',
          draws w' <= draws w2 ->
          handleUploadFile env_ok args2 w2 = (Normal r2, w2') ->
          FileResult.folder_id r2 <> FileResult.folder_id r).
Proof.
  destruct (C5_destination_key_and_url env_ok (FileArgs.mk "/tmp/a.png" None) world0
              [Byte.x89] "" "" eq_refl eq_refl eq_refl)
    as (r & w' & H1 & H2 & H3 & H4 & H5 & H6).
  exists r, w'. repeat split; try assumption. exact (H6 never_repeats_env_ok).
Defined.

(** ** C6: the two defaults *)

(** C6: with no explicit type (absent or empty) and an extension that the
    table at hand does not list, the resolver of [upload_file] gives
    [image/jpeg] and the resolver of [upload_file_content] gives
    [application/octet-stream]; both depend on the name through its
    lower-cased extension only; and a call of [handleUploadFile] reports
    [image/jpeg] whatever bytes the file holds, as a call of
    [handleUploadFileContent] without inline-data prefix reports
    [application/octet-stream]. *)
Theorem C6_unknown_extension_defaults (E : Env) (name : string) (explicit : option string) :
  truthy_opt explicit = false ->
  (mimeMap !! toLowerCase (extname name) = None ->
   or_else explicit (detectContentType name) = "image/jpeg")
  /\ (contentMimeMap !! toLowerCase (extname name) = None ->
      or_else explicit (detectContentMimeType name) = "application/octet-stream")
  /\ (forall other,
        toLowerCase (extname other) = toLowerCase (extname name) ->
        detectContentType other = detectContentType name
        /\ detectContentMimeType other = detectContentMimeType name)
  /\ (forall w bytes out err,
        mimeMap !! toLowerCase (extname name) = None ->
        truthy name = true ->
        files w !! name = Some bytes ->
        spawn_outcome E (file_command E w (FileArgs.mk name explicit)) = Exited 0 out err ->
        exists r w',
          handleUploadFile E (FileArgs.mk name explicit) w = (Normal r, w')
          /\ FileResult.content_type r = "image/jpeg")
  /\ (forall w content x out err,
        contentMimeMap !! toLowerCase (extname name) = None ->
        truthy content = true ->
        truthy name = true ->
        match_data_url content = None ->
        atob (slice 0 100 (payload_of explicit content)) = Some x ->
        write_throws E (staged_path E w name) (staged_bytes explicit content) = None ->
        spawn_outcome E (content_command E w (ContentArgs.mk content name explicit))
        = Exited 0 out err ->
        exists r w',
          handleUploadFileContent E (ContentArgs.mk content name explicit) w = (Normal r, w')
          /\ ContentResult.mime_type r = "application/octet-stream").
Proof.
  intros Hexp.
  assert (forall d, or_else explicit d = d) as Hor.
  { intros d. destruct explicit as [s|]; [|reflexivity].
    cbn [truthy_opt] in Hexp. cbn [or_else]. now rewrite Hexp. }
  split; [|split; [|split; [|split]]].
  - intros Hext. rewrite Hor. unfold detectContentType. now rewrite Hext.
  - intros Hext. rewrite Hor. unfold detectContentMimeType. now rewrite Hext.
  - intros other Hsame. unfold detectContentType, detectContentMimeType.
    now rewrite Hsame.
  - intros w bytes out err Hext Hname Hfile Hspawn.
    eexists. eexists. split.
    { rewrite handleUploadFile_unfold. cbv zeta.
      cbn [FileArgs.file_path FileArgs.content_type].
      rewrite Hname, Hfile, Hspawn. reflexivity. }
    cbn [FileResult.content_type]. rewrite Hor.
    unfold detectContentType. now rewrite Hext.
  - intros w content x out err Hext Hcontent Hname Hnone Hatob Hwrite Hspawn.
    eexists. eexists. split.
    { rewrite handleUploadFileContent_unfold. cbv zeta.
      cbn [ContentArgs.content ContentArgs.filename ContentArgs.mime_type].
      rewrite Hcontent, Hname, Hatob, Hwrite, Hspawn. reflexivity. }
    cbn [ContentResult.mime_type]. rewrite content_type_sent_precedence.
    unfold mime_precedence. rewrite Hnone, Hext.
    destruct explicit as [[|c s]|]; [reflexivity|discriminate|reflexivity].
Qed.

Lemma C6_defaults_witness :
  or_else None (detectContentType "/tmp/data.unknown") = "image/jpeg"
  /\ or_else None (detectContentMimeType "/tmp/data.unknown") = "application/octet-stream"
  /\ (exists r w',
        handleUploadFile env_ok (FileArgs.mk "/tmp/data.unknown" None)
          (mkWorld (<["/tmp/data.unknown" := hello]> ∅) 0 []) = (Normal r, w')
        /\ FileResult.content_type r = "image/jpeg")
  /\ (exists r w',
        handleUploadFileContent env_ok (ContentArgs.mk "aGVsbG8=" "/tmp/data.unknown" None)
          world0 = (Normal r, w')
        /\ ContentResult.mime_type r = "application/octet-stream").
Proof.
  destruct (C6_unknown_extension_defaults env_ok "/tmp/data.unknown" None eq_refl)
    as (H1 & H2 & _ & H4 & H5).
  split; [exact (H1 eq_refl)|]. split; [exact (H2 eq_refl)|]. split.
  - exact (H4 (mkWorld (<["/tmp/data.unknown" := hello]> ∅) 0 []) hello "" ""
             eq_refl eq_refl eq_refl eq_refl).
  - exact (H5 world0 "aGVsbG8=" hello "" "" eq_refl eq_refl eq_refl eq_refl eq_refl
             eq_refl eq_refl).
Defined.

(** ** C7: base64 round trip *)

(** C7 (counterexample): the empty byte sequence encodes to the empty
    string, which the guard on required fields rejects: nothing is decoded,
    staged or transferred and there is no success result. *)
Lemma C7_empty_bytes_are_rejected :
  base64_encode [] = ""
  /\ handleUploadFileContent env_ok (ContentArgs.mk (base64_encode []) "empty.bin" None) world0
     = (Abrupt (Mcp InvalidParams "MCP error -32602: content and filename are required"),
        world0).
Proof. split; reflexivity. Qed.

(** C7 (amended): for every byte sequence that is not empty, a call of
    [handleUploadFileContent] on its base64 encoding (with a non-empty
    filename, the write succeeding and curl exiting with status 0) decodes
    the very bytes, writes them to the staged file before the transfer of
    that file starts, and succeeds with [content_size] equal to the number
    of bytes. *)
Theorem C7_base64_round_trip
  (E : Env) (bs : list Byte.byte) (filename : string) (mime : option string) (w : World)
  (out err : string) :
  bs <> [] ->
  truthy filename = true ->
  write_throws E (staged_path E w filename) bs = None ->
  spawn_outcome E (content_command E w (ContentArgs.mk (base64_encode bs) filename mime))
  = Exited 0 out err ->
  exists r w' rest,
    handleUploadFileContent E (ContentArgs.mk (base64_encode bs) filename mime) w
    = (Normal r, w')
    /\ staged_bytes mime (base64_encode bs) = bs
    /\ ContentResult.content_size r = length bs
    /\ trace w'
       = trace w
         ++ EvRandomUUID (folder_of E w)
            :: EvWrite (staged_path E w filename) bs
            :: EvSpawn (content_command E w (ContentArgs.mk (base64_encode bs) filename mime))
            :: rest
    /\ transfers rest = 0.
Proof.
  intros Hbs Hname Hwrite Hspawn.
  assert (staged_bytes mime (base64_encode bs) = bs) as Hbuf.
  { unfold staged_bytes, payload_of. rewrite strip_data_url_encode. cbn [snd].
    apply Buffer_from_base64_encode. }
  assert (atob (slice 0 100 (payload_of mime (base64_encode bs))) = Some (take 75 bs))
    as Hatob.
  { unfold payload_of. rewrite strip_data_url_encode. cbn [snd].
    apply atob_prefix_encode. }
  pose proof (handleUploadFileContent_unfold E
                (ContentArgs.mk (base64_encode bs) filename mime) w) as Hrun.
  cbv zeta in Hrun.
  cbn [ContentArgs.content ContentArgs.filename ContentArgs.mime_type] in Hrun.
  rewrite (truthy_encode bs Hbs), Hname, Hatob, Hbuf, Hwrite, Hspawn in Hrun.
  cbn [andb Z.eqb] in Hrun.
  destruct (delete_throws E (staged_path E w filename)) as [msg|];
    rewrite Hrun; eexists; eexists; eexists;
    (split; [reflexivity|]); (split; [exact Hbuf|]);
    (split; [reflexivity|]); (split; [reflexivity|]); reflexivity.
Qed.

Lemma C7_round_trip_witness :
  exists r w' rest,
    handleUploadFileContent env_ok (ContentArgs.mk (base64_encode hello) "hello.txt" None)
      world0 = (Normal r, w')
    /\ staged_bytes None (base64_encode hello) = hello
    /\ ContentResult.content_size r = 5
    /\ trace w'
       = trace world0
         ++ EvRandomUUID "id"
            :: EvWrite "/tmp/id_hello.txt" hello
            :: EvSpawn (uploadCommand "id/hello.txt" "/tmp/id_hello.txt" "text/plain")
            :: rest
    /\ transfers rest = 0.
Proof.
  assert (hello <> []) as Hne by discriminate.
  exact (C7_base64_round_trip env_ok hello "hello.txt" None world0 "" ""
           Hne eq_refl eq_refl eq_refl).
Defined.

(** ** C8: one transfer, no retry *)



(** ** C9: what follows the prefix check *)

Lemma omap_no_sextet (l : list ascii) :
  Forall (fun c => b64_index_lenient c = None) l ->
  omap b64_index_lenient (until_pad l) = [].
Proof.
  induction 1 as [|c l Hc _ IH]; [reflexivity|].
  cbn [until_pad]. destruct (is_pad c); [reflexivity|].
  cbn [omap list_omap]. now rewrite Hc.
Qed.

(** After whole groups, the decoder goes on with what follows them. *)
Lemma decode_groups_then (k : nat) (bs : list Byte.byte) (rest : list ascii) :
  length bs = 3 * k ->
  sextets_to_bytes (omap b64_index_lenient (until_pad (encode_groups bs ++ rest)))
  = bs ++ sextets_to_bytes (omap b64_index_lenient (until_pad rest)).
Proof.
  revert bs. induction k as [|k IH]; intros bs Hlen.
  - destruct bs; [reflexivity|discriminate].
  - destruct bs as [|a [|b [|c bs]]]; cbn [length] in Hlen; try lia.
    cbn [encode_groups app until_pad].
    rewrite !b64_char_not_pad by auto using sextet1_lt, sextet2_lt, sextet3_lt, sextet4_lt.
    cbn [omap list_omap].
    rewrite !lenient_char by auto using sextet1_lt, sextet2_lt, sextet3_lt, sextet4_lt.
    cbn [sextets_to_bytes app].
    rewrite join12, join23, join34, IH by lia. reflexivity.
Qed.

(** Whole groups followed by characters that stand for no 6-bit value, or
    by a [=] and anything: the decoder gives the bytes of the groups. *)
Lemma Buffer_from_base64_then (k : nat) (bs : list Byte.byte) (tail : string) :
  length bs = 3 * k ->
  no_sextet tail \/ (exists t, tail = "=" +:+ t) ->
  Buffer_from_base64 (base64_encode bs +:+ tail) = bs.
Proof.
  intros Hlen Htail. unfold Buffer_from_base64, base64_encode.
  rewrite chars_append, chars_str, (decode_groups_then k) by exact Hlen.
  destruct Htail as [Hno|[t ->]].
  - rewrite omap_no_sextet by exact Hno. apply app_nil_r.
  - rewrite chars_append. apply app_nil_r.
Qed.

(** C9: once [atob] has accepted the first 100 characters, the call
    draws its identifier and writes the leniently decoded bytes of the whole
    payload to the staged file, whatever follows position 100; it can no
    longer end in an InvalidParams error; and when the write succeeds and
    curl exits with status 0 it succeeds, with [content_size] the number of
    decoded bytes.  The decoding is lenient in this sense: when the payload
    is the encoding of whole 3-byte groups followed by characters that are
    no base64 characters, or by a [=] and anything at all, the decoded bytes
    are the bytes of the groups. *)
Theorem C9_full_decode_never_rejects
  (E : Env) (args : ContentArgs.t) (w : World) (x : list Byte.byte) :
  truthy (ContentArgs.content args) = true ->
  truthy (ContentArgs.filename args) = true ->
  atob (slice 0 100 (payload_of (ContentArgs.mime_type args) (ContentArgs.content args)))
  = Some x ->
  let buf := staged_bytes (ContentArgs.mime_type args) (ContentArgs.content args) in
  let tmp := staged_path E w (ContentArgs.filename args) in
  let run := handleUploadFileContent E args w in
  (exists rest,
     trace run.2 = trace w ++ EvRandomUUID (folder_of E w) :: EvWrite tmp buf :: rest)
  /\ (forall e, run.1 = Abrupt e -> code_of e = Some InternalError)
  /\ (forall out err,
        write_throws E tmp buf = None ->
        spawn_outcome E (content_command E w args) = Exited 0 out err ->
        exists r,
          run.1 = Normal r
          /\ ContentResult.content_size r = length buf
          /\ transfers (trace run.2) = transfers (trace w) + 1)
  /\ (forall k bs tail,
        length bs = 3 * k ->
        payload_of (ContentArgs.mime_type args) (ContentArgs.content args)
        = base64_encode bs +:+ tail ->
        no_sextet tail \/ (exists t, tail = "=" +:+ t) ->
        buf = bs).
Proof.
  intros Hc Hf Hatob buf tmp run. subst buf tmp run.
  rewrite handleUploadFileContent_unfold. cbv zeta. rewrite Hc, Hf, Hatob. cbn [andb].
  split; [|split; [|split]].
  - destruct (write_throws E _ _); [eexists; reflexivity|].
    destruct (spawn_outcome E _) as [code out err|msg]; [|eexists; reflexivity].
    cbn [snd]. destruct (delete_throws E _); eexists; reflexivity.
  - intros e.
    destruct (write_throws E _ _); [intros H; injection H as <-; reflexivity|].
    destruct (spawn_outcome E _) as [code out err|msg];
      [|intros H; injection H as <-; reflexivity].
    cbn [fst]. destruct (code =? 0)%Z; [discriminate|].
    intros H; injection H as <-; reflexivity.
  - intros out err Hwrite Hspawn. rewrite Hwrite, Hspawn. cbn [fst snd Z.eqb].
    eexists. split; [reflexivity|]. split; [reflexivity|].
    destruct (delete_throws E _); cbn [trace]; rewrite transfers_app; cbn; lia.
  - intros k bs tail Hlen Hpayload Htail. unfold staged_bytes. rewrite Hpayload.
    now apply (Buffer_from_base64_then k).
Qed.

Lemma C9_late_garbage_witness :
  atob (base64_encode seventy_five +:+ "=AAAA") = None
  /\ (exists rest,
        trace (handleUploadFileContent env_ok
                 (ContentArgs.mk (base64_encode seventy_five +:+ "=AAAA") "blob.bin" None)
                 world0).2
        = trace world0
          ++ EvRandomUUID "id" :: EvWrite "/tmp/id_blob.bin" seventy_five :: rest)
  /\ (exists r,
        (handleUploadFileContent env_ok
           (ContentArgs.mk (base64_encode seventy_five +:+ "=AAAA") "blob.bin" None)
           world0).1 = Normal r
        /\ ContentResult.content_size r = 75)
  /\ staged_bytes None (base64_encode seventy_five +:+ "=AAAA") = seventy_five.
Proof.
  destruct (C9_full_decode_never_rejects env_ok
              (ContentArgs.mk (base64_encode seventy_five +:+ "=AAAA") "blob.bin" None)
              world0 seventy_five eq_refl eq_refl eq_refl) as (H1 & _ & H3 & H4).
  split; [reflexivity|]. split; [exact H1|]. split.
  - destruct (H3 "" "" eq_refl eq_refl) as (r & Hr & Hsize & _).
    exists r. split; [exact Hr|exact Hsize].
  - apply (H4 25 seventy_five "=AAAA"); [reflexivity|reflexivity|].
    right. exists "AAAA". reflexivity.
Defined.

(** ** C10: the result agrees with the transfer *)

Lemma handleUploadFileContent_success (E : Env) (args : ContentArgs.t) (w : World)
  (r : ContentResult.t) (w' : World) :
  handleUploadFileContent E args w = (Normal r, w') ->
  r = ContentResult.mk true (basename (ContentArgs.filename args)) (folder_of E w)
        (content_type_sent (ContentArgs.mime_type args) (ContentArgs.content args)
           (ContentArgs.filename args))
        (remote_of E w (ContentArgs.filename args))
        ("https://s3.reily.app/public/" +:+ remote_of E w (ContentArgs.filename args))
        (length (staged_bytes (ContentArgs.mime_type args) (ContentArgs.content args)))
        ("File content uploaded successfully to "
         +:+ ("https://s3.reily.app/public/" +:+ remote_of E w (ContentArgs.filename args)))
  /\ exists rest,
       trace w'
       = trace w
         ++ EvRandomUUID (folder_of E w)
            :: EvWrite (staged_path E w (ContentArgs.filename args))
                 (staged_bytes (ContentArgs.mime_type args) (ContentArgs.content args))
            :: EvSpawn (content_command E w args)
            :: EvDelete (staged_path E w (ContentArgs.filename args))
            :: rest
       /\ transfers rest = 0.
Proof.
  rewrite handleUploadFileContent_unfold. cbv zeta.
  destruct (truthy _ && truthy _); [|discriminate].
  destruct (atob _); [|discriminate].
  destruct (write_throws E _ _); [discriminate|].
  destruct (spawn_outcome E _) as [code out err|msg]; [|discriminate].
  destruct (code =? 0)%Z; [|discriminate].
  intros H. injection H as <- <-. split; [reflexivity|].
  destruct (delete_throws E _); eexists; split; reflexivity.
Qed.

(** C10: in every successful call of either operation, the one curl
    invocation of the call puts to [https://s3.reily.app/public/] followed
    by the result's [remote_path] with a [Content-Type] header equal to the
    result's [content_type] (respectively [mime_type]); [url] is that same
    address; and [remote_path] is [folder_id], a slash, and the reported
    file name. *)
Theorem C10_result_agrees_with_transfer (E : Env) (w : World) :
  (forall args r w',
     handleUploadFile E args w = (Normal r, w') ->
     trace w'
     = trace w
       ++ [EvExists (FileArgs.file_path args);
           EvRandomUUID (FileResult.folder_id r);
           EvSpawn (uploadCommand (FileResult.remote_path r) (FileArgs.file_path args)
                      (FileResult.content_type r))]
     /\ uploadCommand (FileResult.remote_path r) (FileArgs.file_path args)
          (FileResult.content_type r) !! 3
        = Some (FileResult.url r)
     /\ uploadCommand (FileResult.remote_path r) (FileArgs.file_path args)
          (FileResult.content_type r) !! 7
        = Some ("Content-Type: " +:+ FileResult.content_type r)
     /\ FileResult.url r = "https://s3.reily.app/public/" +:+ FileResult.remote_path r
     /\ FileResult.remote_path r
        = FileResult.folder_id r +:+ "/" +:+ FileResult.original_filename r)
  /\ (forall args r w',
        handleUploadFileContent E args w = (Normal r, w') ->
        (exists tmp data rest,
           trace w'
           = trace w
             ++ EvRandomUUID (ContentResult.folder_id r)
                :: EvWrite tmp data
                :: EvSpawn (uploadCommand (ContentResult.remote_path r) tmp
                              (ContentResult.mime_type r))
                :: rest
           /\ transfers rest = 0
           /\ uploadCommand (ContentResult.remote_path r) tmp (ContentResult.mime_type r) !! 3
              = Some (ContentResult.url r)
           /\ uploadCommand (ContentResult.remote_path r) tmp (ContentResult.mime_type r) !! 7
              = Some ("Content-Type: " +:+ ContentResult.mime_type r))
        /\ ContentResult.url r
           = "https://s3.reily.app/public/" +:+ ContentResult.remote_path r
        /\ ContentResult.remote_path r
           = ContentResult.folder_id r +:+ "/" +:+ ContentResult.filename r).
Proof.
  split.
  - intros args r w' H. apply handleUploadFile_success in H as [-> ->].
    cbn [FileResult.folder_id FileResult.remote_path FileResult.content_type
         FileResult.url FileResult.original_filename trace].
    repeat split.
  - intros args r w' H. apply handleUploadFileContent_success in H as [-> (rest & Ht & Hr)].
    cbn [ContentResult.folder_id ContentResult.remote_path ContentResult.mime_type
         ContentResult.url ContentResult.filename].
    split; [|split; reflexivity].
    eexists. eexists. eexists. split; [exact Ht|]. split; [exact Hr|].
    split; reflexivity.
Qed.

Lemma C10_agreement_witness :
  (exists r w',
     handleUploadFile env_ok (FileArgs.mk "/tmp/a.png" (Some "image/x-png")) world0
     = (Normal r, w')
     /\ trace w'
        = [EvExists "/tmp/a.png"; EvRandomUUID "id";
           EvSpawn ["curl"; "-X"; "PUT"; "https://s3.reily.app/public/id/a.png";
                    "-T"; "/tmp/a.png"; "-H"; "Content-Type: image/x-png";
                    "--silent"; "--fail"]]
     /\ FileResult.content_type r = "image/x-png"
     /\ FileResult.url r = "https://s3.reily.app/public/id/a.png"
     /\ FileResult.remote_path r = "id/a.png")
  /\ (exists r w',
        handleUploadFileContent env_ok (ContentArgs.mk "aGVsbG8=" "dir/hello.txt" None) world0
        = (Normal r, w')
        /\ ContentResult.mime_type r = "text/plain"
        /\ ContentResult.url r
           = "https://s3.reily.app/public/" +:+ ContentResult.remote_path r
        /\ ContentResult.remote_path r = "id/hello.txt").
Proof.
  destruct (C10_result_agrees_with_transfer env_ok world0) as [Hfile Hcontent].
  split.
  - eexists. eexists. split; [reflexivity|].
    destruct (Hfile (FileArgs.mk "/tmp/a.png" (Some "image/x-png")) _ _ eq_refl)
      as (Ht & _ & _ & Hu & Hp).
    split; [exact Ht|]. split; [reflexivity|]. split; [exact Hu|exact Hp].
  - eexists. eexists. split; [reflexivity|].
    destruct (Hcontent (ContentArgs.mk "aGVsbG8=" "dir/hello.txt" None) _ _ eq_refl)
      as (_ & Hu & Hp).
    split; [reflexivity|]. split; [exact Hu|exact Hp].
Defined.

(** * Further properties of the server *)

(** ** How a call can fail *)

Lemma handleUploadFile_failure (E : Env) (args : FileArgs.t) (w : World)
  (e : Thrown) (w' : World) :
  handleUploadFile E args w = (Abrupt e, w') ->
  (truthy (FileArgs.file_path args) = false
   /\ e = McpError InvalidParams "file_path is required" /\ w' = w)
  \/ (truthy (FileArgs.file_path args) = true
      /\ exists cause, e = McpError InternalError ("Failed to upload file: " +:+ cause)).
Proof.
  rewrite handleUploadFile_unfold. cbv zeta.
  destruct (truthy _).
  2:{ intros H. injection H as <- <-. left. auto. }
  right. split; [reflexivity|].
  destruct (files w !! _); [|injection H as <- _; eexists; reflexivity].
  destruct (spawn_outcome E _) as [code out err|msg];
    [|injection H as <- _; eexists; reflexivity].
  destruct (code =? 0)%Z; [discriminate|].
  injection H as <- _. eexists; reflexivity.
Qed.

Lemma handleUploadFileContent_failure (E : Env) (args : ContentArgs.t) (w : World)
  (e : Thrown) (w' : World) :
  handleUploadFileContent E args w = (Abrupt e, w') ->
  (truthy (ContentArgs.content args) && truthy (ContentArgs.filename args) = false
   /\ e = McpError InvalidParams "content and filename are required" /\ w' = w)
  \/ (truthy (ContentArgs.content args) && truthy (ContentArgs.filename args) = true
      /\ exists cause,
           e = McpError InternalError ("Failed to upload file content: " +:+ cause)).
Proof.
  rewrite handleUploadFileContent_unfold. cbv zeta.
  destruct (truthy _ && truthy _).
  2:{ intros H. injection H as <- <-. left. auto. }
  right. split; [reflexivity|].
  destruct (atob _); [|injection H as <- _; eexists; reflexivity].
  destruct (write_throws E _ _); [injection H as <- _; eexists; reflexivity|].
  destruct (spawn_outcome E _) as [code out err|msg];
    [|injection H as <- _; eexists; reflexivity].
  cbn [fst] in H. destruct (code =? 0)%Z; [discriminate|].
  injection H as <- _. eexists; reflexivity.
Qed.

Lemma truthy_false (s : string) : truthy s = false -> s = "".
Proof. destruct s; [reflexivity|discriminate]. Qed.

(** X1: a failing [upload_file] call ends in one of three ways and in no
    other.  Without an argument object, the destructuring on entry, which
    stands before the guard and outside the [try], throws the engine's
    TypeError: a raw error that is no [McpError] reaches the caller, and
    nothing is done.  With an argument object whose [file_path] is absent or
    empty: InvalidParams "file_path is required", and nothing is done.
    Otherwise: an InternalError whose message is "Failed to upload file: "
    followed by the text of the cause. *)
Theorem X1_upload_file_failures
  (E : Env) (arguments : option (gmap string string)) (w : World)
  (e : Thrown) (w' : World) :
  upload_file_call E arguments w = (Abrupt e, w') ->
  (arguments = None /\ e = destructure_error /\ code_of e = None /\ w' = w)
  \/ (exists args,
        arguments = Some args
        /\ required_member args "file_path" = ""
        /\ e = Mcp InvalidParams "MCP error -32602: file_path is required"
        /\ w' = w)
  \/ (exists args cause,
        arguments = Some args
        /\ truthy (required_member args "file_path") = true
        /\ e = Mcp InternalError ("MCP error -32603: Failed to upload file: " +:+ cause)).
Proof.
  destruct arguments as [args|]; cbn [upload_file_call].
  - intros H. right.
    apply handleUploadFile_failure in H as [(Hp & -> & ->)|(Hp & cause & ->)];
      cbn [FileArgs.file_path] in Hp.
    + left. exists args. auto using truthy_false.
    + right. exists args, cause. auto.
  - intros H. injection H as <- <-. left. auto.
Qed.

Lemma X1_upload_file_failures_witness :
  upload_file_call env_ok None world0 = (Abrupt destructure_error, world0)
  /\ ((@None (gmap string string) = None
       /\ destructure_error = destructure_error
       /\ code_of destructure_error = None
       /\ world0 = world0)
      \/ (exists args,
            None = Some args
            /\ required_member args "file_path" = ""
            /\ destructure_error = Mcp InvalidParams "MCP error -32602: file_path is required"
            /\ world0 = world0)
      \/ (exists args cause,
            None = Some args
            /\ truthy (required_member args "file_path") = true
            /\ destructure_error
               = Mcp InternalError ("MCP error -32603: Failed to upload file: " +:+ cause))).
Proof.
  split; [reflexivity|].
  exact (X1_upload_file_failures env_ok None world0 _ _ eq_refl).
Defined.

(** X2: the same for [upload_file_content]: the raw TypeError of the
    destructuring when the call carries no argument object; InvalidParams
    "content and filename are required", with nothing done, when the object
    lacks [content] or [filename] or holds the empty string for one of them;
    otherwise an InternalError whose message is "Failed to upload file
    content: " followed by the text of the cause. *)
Theorem X2_upload_file_content_failures
  (E : Env) (arguments : option (gmap string string)) (w : World)
  (e : Thrown) (w' : World) :
  upload_file_content_call E arguments w = (Abrupt e, w') ->
  (arguments = None /\ e = destructure_error /\ code_of e = None /\ w' = w)
  \/ (exists args,
        arguments = Some args
        /\ (required_member args "content" = "" \/ required_member args "filename" = "")
        /\ e = Mcp InvalidParams "MCP error -32602: content and filename are required"
        /\ w' = w)
  \/ (exists args cause,
        arguments = Some args
        /\ truthy (required_member args "content") = true
        /\ truthy (required_member args "filename") = true
        /\ e = Mcp InternalError
                 ("MCP error -32603: Failed to upload file content: " +:+ cause)).
Proof.
  destruct arguments as [args|]; cbn [upload_file_content_call].
  - intros H. right.
    apply handleUploadFileContent_failure in H as [(Hp & -> & ->)|(Hp & cause & ->)];
      cbn [ContentArgs.content ContentArgs.filename] in Hp.
    + left. exists args. split; [reflexivity|]. split; [|auto].
      apply andb_false_iff in Hp as [Hp|Hp]; auto using truthy_false.
    + right. apply andb_true_iff in Hp as [? ?]. exists args, cause. auto.
  - intros H. injection H as <- <-. left. auto.
Qed.

Lemma X2_upload_file_content_failures_witness :
  upload_file_content_call env_ok (Some (<["content" := "aGVsbG8="]> ∅)) world0
  = (Abrupt (Mcp InvalidParams "MCP error -32602: content and filename are required"),
     world0)
  /\ exists args,
       Some (<["content" := "aGVsbG8="]> ∅) = Some args
       /\ (required_member args "content" = "" \/ required_member args "filename" = "").
Proof.
  assert (upload_file_content_call env_ok (Some (<["content" := "aGVsbG8="]> ∅)) world0
          = (Abrupt (Mcp InvalidParams
                       "MCP error -32602: content and filename are required"), world0))
    as Hrun by reflexivity.
  split; [exact Hrun|].
  destruct (X2_upload_file_content_failures env_ok (Some (<["content" := "aGVsbG8="]> ∅))
              world0 _ _ Hrun)
    as [(H & _)|[(args & H1 & H2 & _)|(args & cause & _ & _ & _ & H)]].
  - discriminate.
  - exists args. auto.
  - discriminate.
Defined.

(** ** When a call succeeds *)

(** X3: a call of [handleUploadFile] succeeds exactly when the path is not
    empty, names a file on disk, and the curl process of the call exits with
    status 0. *)
Theorem X3_upload_file_succeeds_iff (E : Env) (args : FileArgs.t) (w : World) :
  (exists r w', handleUploadFile E args w = (Normal r, w'))
  <-> truthy (FileArgs.file_path args) = true
      /\ is_Some (files w !! FileArgs.file_path args)
      /\ exists out err, spawn_outcome E (file_command E w args) = Exited 0 out err.
Proof.
  rewrite handleUploadFile_unfold. cbv zeta. split.
  - intros (r & w' & H).
    destruct (truthy _); [|discriminate].
    destruct (files w !! _); [|discriminate].
    destruct (spawn_outcome E _) as [code out err|msg]; [|discriminate].
    destruct (Z.eqb_spec code 0) as [->|]; [|discriminate].
    repeat split; eauto.
  - intros (-> & [bytes ->] & out & err & ->). eexists. eexists. reflexivity.
Qed.

(** X4: a call of [handleUploadFileContent] succeeds exactly when content
    and filename are not empty, [atob] accepts the first 100 characters of
    the payload, the write of the staged file does not throw, and the curl
    process exits with status 0; how the deletion of the staged file ends
    plays no part. *)
Theorem X4_upload_file_content_succeeds_iff (E : Env) (args : ContentArgs.t) (w : World) :
  (exists r w', handleUploadFileContent E args w = (Normal r, w'))
  <-> truthy (ContentArgs.content args) = true
      /\ truthy (ContentArgs.filename args) = true
      /\ is_Some (atob (slice 0 100
                          (payload_of (ContentArgs.mime_type args)
                             (ContentArgs.content args))))
      /\ write_throws E (staged_path E w (ContentArgs.filename args))
           (staged_bytes (ContentArgs.mime_type args) (ContentArgs.content args)) = None
      /\ exists out err, spawn_outcome E (content_command E w args) = Exited 0 out err.
Proof.
  rewrite handleUploadFileContent_unfold. cbv zeta. split.
  - intros (r & w' & H).
    destruct (truthy (ContentArgs.content args)); [|discriminate].
    destruct (truthy (ContentArgs.filename args)); [|discriminate].
    cbn [andb] in H.
    destruct (atob _); [|discriminate].
    destruct (write_throws E _ _); [discriminate|].
    destruct (spawn_outcome E _) as [code out err|msg]; [|discriminate].
    destruct (Z.eqb_spec code 0) as [->|]; [|discriminate].
    repeat split; eauto.
  - intros (-> & -> & [x ->] & -> & out & err & ->). eexists. eexists. reflexivity.
Qed.

(** ** What a call does to the disk *)

(** X5: [handleUploadFile] never creates, changes or deletes a file: the
    disk after any call is the disk before it. *)
Theorem X5_upload_file_leaves_disk_unchanged (E : Env) (args : FileArgs.t) (w : World) :
  files (handleUploadFile E args w).2 = files w.
Proof.
  rewrite handleUploadFile_unfold. cbv zeta.
  destruct (truthy _); [|reflexivity].
  destruct (files w !! _); [|reflexivity].
  destruct (spawn_outcome E _) as [code out err|msg]; [|reflexivity].
  destruct (code =? 0)%Z; reflexivity.
Qed.

(** X6: [handleUploadFileContent] touches no file but its staged one, and
    once the curl process has exited and the deletion has succeeded the disk
    is the disk before the call without the staged path; so when that path
    was free before the call, the call leaves the disk exactly as it found
    it. *)
Theorem X6_upload_file_content_disk_frame (E : Env) (args : ContentArgs.t) (w : World) :
  let tmp := staged_path E w (ContentArgs.filename args) in
  let run := handleUploadFileContent E args w in
  (forall p, p <> tmp -> files run.2 !! p = files w !! p)
  /\ (forall code out err,
        truthy (ContentArgs.content args) = true ->
        truthy (ContentArgs.filename args) = true ->
        is_Some (atob (slice 0 100
                         (payload_of (ContentArgs.mime_type args)
                            (ContentArgs.content args)))) ->
        write_throws E tmp
          (staged_bytes (ContentArgs.mime_type args) (ContentArgs.content args)) = None ->
        spawn_outcome E (content_command E w args) = Exited code out err ->
        delete_throws E tmp = None ->
        files run.2 = delete tmp (files w)
        /\ (files w !! tmp = None -> files run.2 = files w)).
Proof.
  intros tmp run. subst tmp run. split.
  - intros p Hp. rewrite handleUploadFileContent_unfold. cbv zeta.
    destruct (truthy _ && truthy _); [|reflexivity].
    destruct (atob _); [|reflexivity].
    destruct (write_throws E _ _) as [failure|].
    { cbn [snd files]. destruct (left_behind failure); [|reflexivity].
      now rewrite lookup_insert_ne. }
    destruct (spawn_outcome E _) as [code out err|msg]; cbn [snd files].
    + destruct (delete_throws E _); cbn [files].
      * now rewrite lookup_insert_ne.
      * rewrite lookup_delete_ne by auto. now rewrite lookup_insert_ne.
    + now rewrite lookup_insert_ne.
  - intros code out err Hc Hf [x Hatob] Hwrite Hspawn Hdel.
    rewrite handleUploadFileContent_unfold. cbv zeta.
    rewrite Hc, Hf, Hatob, Hwrite, Hspawn, Hdel. cbn [andb snd files].
    rewrite delete_insert_eq. split; [reflexivity|].
    intros Hfree. now apply delete_id.
Qed.

Lemma X6_disk_frame_witness :
  files (handleUploadFileContent env_curl_fails
           (ContentArgs.mk "aGVsbG8=" "hello.txt" None) world0).2
  = delete "/tmp/id_hello.txt" (files world0)
  /\ (files world0 !! "/tmp/id_hello.txt" = None ->
      files (handleUploadFileContent env_curl_fails
               (ContentArgs.mk "aGVsbG8=" "hello.txt" None) world0).2
      = files world0).
Proof.
  refine (proj2 (X6_upload_file_content_disk_frame env_curl_fails
                   (ContentArgs.mk "aGVsbG8=" "hello.txt" None) world0)
            22%Z "" "curl: (22) The requested URL returned error: 403"
            eq_refl eq_refl _ eq_refl eq_refl eq_refl).
  eexists; reflexivity.
Defined.

(** ** Failures of staging and of starting curl *)

(** X7: when the write of the staged file throws, the call ends in an
    InternalError that carries the message of the write, after drawing its
    identifier and attempting the write and nothing else: no curl process is
    started and no deletion is attempted, so whatever the failed write left
    at the staged path (nothing, or a file written in part) stays on disk;
    every other path is unchanged. *)
Theorem X7_failed_staging_stops_the_call
  (E : Env) (args : ContentArgs.t) (w : World) (failure : WriteFailure) :
  truthy (ContentArgs.content args) = true ->
  truthy (ContentArgs.filename args) = true ->
  is_Some (atob (slice 0 100
                   (payload_of (ContentArgs.mime_type args) (ContentArgs.content args)))) ->
  write_throws E (staged_path E w (ContentArgs.filename args))
    (staged_bytes (ContentArgs.mime_type args) (ContentArgs.content args)) = Some failure ->
  let tmp := staged_path E w (ContentArgs.filename args) in
  let run := handleUploadFileContent E args w in
  run.1 = Abrupt (Mcp InternalError
                    ("MCP error -32603: Failed to upload file content: "
                     +:+ write_message failure))
  /\ trace run.2
     = trace w
       ++ [EvRandomUUID (folder_of E w);
           EvWrite tmp
             (staged_bytes (ContentArgs.mime_type args) (ContentArgs.content args))]
  /\ files run.2 !! tmp
     = match left_behind failure with
       | Some partial => Some partial
       | None => files w !! tmp
       end
  /\ (forall p, p <> tmp -> files run.2 !! p = files w !! p).
Proof.
  intros Hc Hf [x Hatob] Hwrite tmp run. subst tmp run.
  rewrite handleUploadFileContent_unfold. cbv zeta.
  rewrite Hc, Hf, Hatob, Hwrite. cbn [andb fst snd trace files].
  split; [reflexivity|]. split; [reflexivity|]. split.
  - destruct (left_behind failure); [apply lookup_insert_eq|reflexivity].
  - intros p Hp. destruct (left_behind failure); [|reflexivity].
    now rewrite lookup_insert_ne.
Qed.

Lemma X7_failed_staging_witness :
  (handleUploadFileContent env_write_fails
     (ContentArgs.mk "aGVsbG8=" "hello.txt" None) world0).1
  = Abrupt (Mcp InternalError
              ("MCP error -32603: Failed to upload file content: "
               +:+ "ENOSPC: no space left on device, write"))
  /\ trace (handleUploadFileContent env_write_fails
              (ContentArgs.mk "aGVsbG8=" "hello.txt" None) world0).2
     = [EvRandomUUID "id"; EvWrite "/tmp/id_hello.txt" hello]
  /\ files (handleUploadFileContent env_write_fails
              (ContentArgs.mk "aGVsbG8=" "hello.txt" None) world0).2
       !! "/tmp/id_hello.txt"
     = Some [Byte.x68; Byte.x65]
  /\ (forall p, p <> "/tmp/id_hello.txt" ->
      files (handleUploadFileContent env_write_fails
               (ContentArgs.mk "aGVsbG8=" "hello.txt" None) world0).2 !! p
      = files world0 !! p).
Proof.
  refine (X7_failed_staging_stops_the_call env_write_fails
            (ContentArgs.mk "aGVsbG8=" "hello.txt" None) world0
            (mkWriteFailure "ENOSPC: no space left on device, write"
               (Some [Byte.x68; Byte.x65]))
            eq_refl eq_refl _ eq_refl).
  eexists; reflexivity.
Defined.

(** X8: when [Bun.spawn] itself throws (curl cannot be started), the call
    ends in an InternalError that carries the thrown message; the cleanup
    step is never reached, so no deletion is attempted and the staged file
    stays on disk with the decoded bytes. *)
Theorem X8_failed_spawn_skips_cleanup
  (E : Env) (args : ContentArgs.t) (w : World) (msg : string) :
  truthy (ContentArgs.content args) = true ->
  truthy (ContentArgs.filename args) = true ->
  is_Some (atob (slice 0 100
                   (payload_of (ContentArgs.mime_type args) (ContentArgs.content args)))) ->
  write_throws E (staged_path E w (ContentArgs.filename args))
    (staged_bytes (ContentArgs.mime_type args) (ContentArgs.content args)) = None ->
  spawn_outcome E (content_command E w args) = SpawnThrows msg ->
  let tmp := staged_path E w (ContentArgs.filename args) in
  let buf := staged_bytes (ContentArgs.mime_type args) (ContentArgs.content args) in
  let run := handleUploadFileContent E args w in
  run.1 = Abrupt (Mcp InternalError
                    ("MCP error -32603: Failed to upload file content: " +:+ msg))
  /\ trace run.2
     = trace w ++ [EvRandomUUID (folder_of E w); EvWrite tmp buf;
                   EvSpawn (content_command E w args)]
  /\ files run.2 !! tmp = Some buf.
Proof.
  intros Hc Hf [x Hatob] Hwrite Hspawn tmp buf run. subst tmp buf run.
  rewrite handleUploadFileContent_unfold. cbv zeta.
  rewrite Hc, Hf, Hatob, Hwrite, Hspawn. cbn [andb fst snd trace files].
  repeat split. apply lookup_insert_eq.
Qed.

Lemma X8_failed_spawn_witness :
  (handleUploadFileContent env_spawn_fails
     (ContentArgs.mk "aGVsbG8=" "hello.txt" None) world0).1
  = Abrupt (Mcp InternalError
              ("MCP error -32603: Failed to upload file content: "
               +:+ "Executable not found in $PATH: curl"))
  /\ trace (handleUploadFileContent env_spawn_fails
              (ContentArgs.mk "aGVsbG8=" "hello.txt" None) world0).2
     = [EvRandomUUID "id"; EvWrite "/tmp/id_hello.txt" hello;
        EvSpawn (uploadCommand "id/hello.txt" "/tmp/id_hello.txt" "text/plain")]
  /\ files (handleUploadFileContent env_spawn_fails
              (ContentArgs.mk "aGVsbG8=" "hello.txt" None) world0).2
       !! "/tmp/id_hello.txt"
     = Some hello.
Proof.
  refine (X8_failed_spawn_skips_cleanup env_spawn_fails
            (ContentArgs.mk "aGVsbG8=" "hello.txt" None) world0
            "Executable not found in $PATH: curl" eq_refl eq_refl _ eq_refl eq_refl).
  eexists; reflexivity.
Defined.

(** ** The content type of [upload_file] *)

(** X9: in every call of [handleUploadFile], each curl invocation carries,
    and a success result reports, the explicit [content_type] when it is
    present and not empty, and otherwise the type [detectContentType] gives
    for the path; an empty [content_type] counts as absent. *)
Theorem X9_upload_file_content_type (E : Env) (args : FileArgs.t) (w : World) :
  let run := handleUploadFile E args w in
  let sent :=
    match FileArgs.content_type args with
    | Some (String c s) => String c s
    | _ => detectContentType (FileArgs.file_path args)
    end in
  (forall r, run.1 = Normal r -> FileResult.content_type r = sent)
  /\ exists evs,
       trace run.2 = trace w ++ evs
       /\ forall cmd, EvSpawn cmd ∈ evs ->
            cmd = uploadCommand (remote_of E w (FileArgs.file_path args))
                    (FileArgs.file_path args) sent.
Proof.
  intros run sent. subst run.
  assert (or_else (FileArgs.content_type args) (detectContentType (FileArgs.file_path args))
          = sent) as Hsent.
  { subst sent. destruct (FileArgs.content_type args) as [[|c s]|]; reflexivity. }
  rewrite handleUploadFile_unfold. cbv zeta. unfold file_command. rewrite Hsent.
  destruct (truthy _).
  2:{ split; [discriminate|]. exists []. split; [now rewrite app_nil_r|].
      intros cmd H. inversion H. }
  destruct (files w !! _).
  2:{ split; [discriminate|]. eexists. split; [reflexivity|].
      intros cmd H. elem_cases H. }
  destruct (spawn_outcome E _) as [code out err|msg].
  2:{ split; [discriminate|]. eexists. split; [reflexivity|].
      intros cmd H. elem_cases H. now injection H as ->. }
  destruct (code =? 0)%Z; (split; [|eexists; split; [reflexivity|];
    intros cmd H; elem_cases H; now injection H as ->]).
  - intros r Hr. injection Hr as <-. reflexivity.
  - discriminate.
Qed.

Lemma X9_content_type_witness :
  (exists r,
     (handleUploadFile env_ok (FileArgs.mk "/tmp/a.png" (Some "image/x-png")) world0).1
     = Normal r /\ FileResult.content_type r = "image/x-png")
  /\ (exists r,
        (handleUploadFile env_ok (FileArgs.mk "/tmp/a.png" (Some "")) world0).1 = Normal r
        /\ FileResult.content_type r = "image/png").
Proof.
  split; (eexists; split; [reflexivity|]).
  - exact (proj1 (X9_upload_file_content_type env_ok
                    (FileArgs.mk "/tmp/a.png" (Some "image/x-png")) world0) _ eq_refl).
  - exact (proj1 (X9_upload_file_content_type env_ok
                    (FileArgs.mk "/tmp/a.png" (Some "")) world0) _ eq_refl).
Defined.

(** ** The dispatcher *)

Lemma callTool_upload_file (E : Env) (request : Request.t) (w : World) :
  Request.name request = "upload_file" ->
  callTool E request w
  = let run := upload_file_call E (Request.arguments request) w in
    (match run.1 with Normal r => Normal (FileReply r) | Abrupt e => Abrupt e end, run.2).
Proof.
  intros Hname. unfold callTool. rewrite Hname. cbn [String.eqb Ascii.eqb Bool.eqb].
  unfold bind, ret. cbv zeta.
  destruct (upload_file_call E _ w) as [[r|e] w']; reflexivity.
Qed.

Lemma callTool_upload_file_content (E : Env) (request : Request.t) (w : World) :
  Request.name request = "upload_file_content" ->
  callTool E request w
  = let run := upload_file_content_call E (Request.arguments request) w in
    (match run.1 with Normal r => Normal (ContentReply r) | Abrupt e => Abrupt e end, run.2).
Proof.
  intros Hname. unfold callTool. rewrite Hname. cbn [String.eqb Ascii.eqb Bool.eqb].
  unfold bind, ret. cbv zeta.
  destruct (upload_file_content_call E _ w) as [[r|e] w']; reflexivity.
Qed.

Lemma callTool_unknown (E : Env) (request : Request.t) (w : World) :
  Request.name request <> "upload_file" ->
  Request.name request <> "upload_file_content" ->
  callTool E request w
  = (Abrupt (McpError MethodNotFound ("Unknown tool: " +:+ Request.name request)), w).
Proof.
  intros H1 H2. unfold callTool.
  destruct (String.eqb_spec (Request.name request) "upload_file"); [contradiction|].
  destruct (String.eqb_spec (Request.name request) "upload_file_content"); [contradiction|].
  reflexivity.
Qed.

Lemma upload_file_call_not_unknown (E : Env) (arguments : option (gmap string string))
  (w : World) (msg : string) (w' : World) :
  upload_file_call E arguments w <> (Abrupt (Mcp MethodNotFound msg), w').
Proof.
  destruct arguments as [args|]; cbn [upload_file_call]; [|discriminate].
  intros H. apply handleUploadFile_failure in H as [(_ & He & _)|(_ & cause & He)];
    discriminate.
Qed.

Lemma upload_file_content_call_not_unknown (E : Env)
  (arguments : option (gmap string string)) (w : World) (msg : string) (w' : World) :
  upload_file_content_call E arguments w <> (Abrupt (Mcp MethodNotFound msg), w').
Proof.
  destruct arguments as [args|]; cbn [upload_file_content_call]; [|discriminate].
  intros H. apply handleUploadFileContent_failure in H as [(_ & He & _)|(_ & cause & He)];
    discriminate.
Qed.

Lemma advertised_names (n : string) :
  n ∈ map tool_name listTools <-> n = "upload_file" \/ n = "upload_file_content".
Proof.
  cbn [map listTools tool_name]. rewrite !elem_of_cons. split.
  - intros [H|[H|H]]; auto. inversion H.
  - intros [H|H]; auto.
Qed.

(** X10: the dispatcher and the tool list agree: a call is answered with
    MethodNotFound exactly when its name is not the name of a listed tool,
    and then the message is "Unknown tool: " followed by the name and
    nothing at all is done. *)
Theorem X10_unknown_tool_iff_not_listed (E : Env) (request : Request.t) (w : World) :
  ((exists msg w', callTool E request w = (Abrupt (Mcp MethodNotFound msg), w'))
   <-> Request.name request ∉ map tool_name listTools)
  /\ (Request.name request ∉ map tool_name listTools ->
      callTool E request w
      = (Abrupt (Mcp MethodNotFound
                   ("MCP error -32601: Unknown tool: " +:+ Request.name request)), w)).
Proof.
  assert (Request.name request ∉ map tool_name listTools ->
          callTool E request w
          = (Abrupt (Mcp MethodNotFound
                       ("MCP error -32601: Unknown tool: " +:+ Request.name request)), w))
    as Hunknown.
  { intros Hn. apply callTool_unknown; intros Heq; apply Hn, advertised_names; auto. }
  split; [|exact Hunknown]. split.
  - intros (msg & w' & H) Hin. apply advertised_names in Hin as [Hn|Hn].
    + rewrite (callTool_upload_file _ _ _ Hn) in H. cbv zeta in H.
      destruct (upload_file_call E _ w) as [[r|e] w1] eqn:Hrun; [discriminate|].
      cbn [fst snd] in H. injection H as -> _.
      now apply upload_file_call_not_unknown in Hrun.
    + rewrite (callTool_upload_file_content _ _ _ Hn) in H. cbv zeta in H.
      destruct (upload_file_content_call E _ w) as [[r|e] w1] eqn:Hrun; [discriminate|].
      cbn [fst snd] in H. injection H as -> _.
      now apply upload_file_content_call_not_unknown in Hrun.
  - intros Hn. eexists. eexists. apply Hunknown, Hn.
Qed.

Lemma X10_unknown_tool_witness :
  callTool env_ok (Request.mk "download_file" (Some (<["file_path" := "/tmp/a.png"]> ∅)))
    world0
  = (Abrupt (Mcp MethodNotFound "MCP error -32601: Unknown tool: download_file"), world0).
Proof.
  refine (proj2 (X10_unknown_tool_iff_not_listed env_ok
                   (Request.mk "download_file" (Some (<["file_path" := "/tmp/a.png"]> ∅)))
                   world0)
            _).
  intros H. apply advertised_names in H as [H|H]; discriminate.
Defined.

(** X11: every member a listed tool declares as required is enforced: a
    call of that tool whose argument object lacks the member, or holds the
    empty string for it, is answered with InvalidParams and nothing at all
    is done. *)
Theorem X11_required_members_are_enforced
  (E : Env) (tool : Tool) (k : string) (request : Request.t)
  (object : gmap string string) (w : World) :
  tool ∈ listTools ->
  k ∈ tool_required tool ->
  Request.name request = tool_name tool ->
  Request.arguments request = Some object ->
  object !! k = None \/ object !! k = Some "" ->
  exists msg, callTool E request w = (Abrupt (Mcp InvalidParams msg), w).
Proof.
  intros Htool Hk Hname Hobject Harg.
  assert (required_member object k = "") as Hempty.
  { unfold required_member. destruct Harg as [-> | ->]; reflexivity. }
  unfold listTools in Htool. elem_cases Htool; subst tool;
    cbn [tool_required tool_name] in Hk, Hname; elem_cases Hk; subst k.
  - rewrite (callTool_upload_file _ _ _ Hname). cbv zeta.
    rewrite Hobject. cbn [upload_file_call].
    rewrite handleUploadFile_unfold. cbv zeta. cbn [FileArgs.file_path].
    rewrite Hempty. eexists. reflexivity.
  - rewrite (callTool_upload_file_content _ _ _ Hname). cbv zeta.
    rewrite Hobject. cbn [upload_file_content_call].
    rewrite handleUploadFileContent_unfold. cbv zeta.
    cbn [ContentArgs.content ContentArgs.filename]. rewrite Hempty.
    eexists. reflexivity.
  - rewrite (callTool_upload_file_content _ _ _ Hname). cbv zeta.
    rewrite Hobject. cbn [upload_file_content_call].
    rewrite handleUploadFileContent_unfold. cbv zeta.
    cbn [ContentArgs.content ContentArgs.filename]. rewrite Hempty, andb_false_r.
    eexists. reflexivity.
Qed.

Lemma X11_required_members_witness :
  exists msg,
    callTool env_ok
      (Request.mk "upload_file_content" (Some (<["content" := "aGVsbG8="]> ∅))) world0
    = (Abrupt (Mcp InvalidParams msg), world0).
Proof.
  apply (X11_required_members_are_enforced env_ok
           (mkTool "upload_file_content"
              "Upload file content directly to S3-compatible storage and get a shareable URL. Files are automatically organized in UUID folders."
              [ mkProperty "content" "Base64-encoded file content";
                mkProperty "filename" "Original filename with extension";
                mkProperty "mime_type"
                  "MIME type of the file content (e.g., image/png, text/plain, application/pdf)" ]
              [ "content"; "filename" ])
           "filename" _ (<["content" := "aGVsbG8="]> ∅)).
  - unfold listTools. apply elem_of_cons. right. apply elem_of_cons. left. reflexivity.
  - cbn [tool_required]. apply elem_of_cons. right. apply elem_of_cons. left. reflexivity.
  - reflexivity.
  - reflexivity.
  - left. reflexivity.
Defined.

(** ** A sequence of calls *)

Lemma callTool_draws (E : Env) (request : Request.t) (w : World) :
  draws w <= draws (callTool E request w).2
  /\ forall reply,
       (callTool E request w).1 = Normal reply ->
       reply_folder reply = uuid_source E (draws w)
       /\ draws (callTool E request w).2 = S (draws w).
Proof.
  destruct (String.eqb_spec (Request.name request) "upload_file") as [Hn|Hn1].
  { rewrite (callTool_upload_file _ _ _ Hn). cbv zeta. cbn [fst snd].
    destruct (Request.arguments request) as [args|]; cbn [upload_file_call].
    2:{ cbn. split; [lia|discriminate]. }
    split.
    - apply handleUploadFile_draws.
    - intros reply.
      destruct (handleUploadFile E _ w) as [[r|e] w1] eqn:Hrun; [|discriminate].
      intros H. injection H as <-.
      apply handleUploadFile_success in Hrun as [-> ->]. split; reflexivity. }
  destruct (String.eqb_spec (Request.name request) "upload_file_content") as [Hn|Hn2].
  { rewrite (callTool_upload_file_content _ _ _ Hn). cbv zeta. cbn [fst snd].
    destruct (Request.arguments request) as [args|]; cbn [upload_file_content_call].
    2:{ cbn. split; [lia|discriminate]. }
    split.
    - apply handleUploadFileContent_draws.
    - intros reply.
      destruct (handleUploadFileContent E _ w) as [[r|e] w1] eqn:Hrun; [|discriminate].
      intros H. injection H as <-. cbn [snd reply_folder].
      pose proof Hrun as Hrun'. apply handleUploadFileContent_success in Hrun as [-> _].
      split; [reflexivity|].
      rewrite handleUploadFileContent_unfold in Hrun'. cbv zeta in Hrun'.
      destruct (truthy _ && truthy _); [|discriminate].
      destruct (atob _); [|discriminate].
      destruct (write_throws E _ _); [discriminate|].
      destruct (spawn_outcome E _) as [code out err|msg]; [|discriminate].
      injection Hrun' as _ <-. destruct (delete_throws E _); reflexivity. }
  rewrite (callTool_unknown _ _ _ Hn1 Hn2). cbn [fst snd]. split; [lia|discriminate].
Qed.

Lemma callTools_folders (E : Env) (requests : list Request.t) (w : World) :
  draws w <= draws (callTools E requests w).2
  /\ forall id, id ∈ folders (callTools E requests w).1 ->
       exists k, draws w <= k /\ id = uuid_source E k.
Proof.
  revert w. induction requests as [|request rest IH]; intros w.
  - cbn. split; [lia|]. intros id H. inversion H.
  - cbn [callTools].
    pose proof (callTool_draws E request w) as [Hle Hok].
    destruct (callTool E request w) as [c w1]. cbn [fst snd] in Hle, Hok.
    specialize (IH w1) as [IHle IHin].
    destruct (callTools E rest w1) as [cs w2]. cbn [fst snd] in *.
    split; [lia|]. intros id Hid.
    destruct c as [reply|e]; cbn [folders] in Hid.
    + apply elem_of_cons in Hid as [->|Hid].
      * destruct (Hok reply eq_refl) as [-> _]. exists (draws w). split; [lia|reflexivity].
      * destruct (IHin id Hid) as (k & Hk & ->). exists k. split; [lia|reflexivity].
    + destruct (IHin id Hid) as (k & Hk & ->). exists k. split; [lia|reflexivity].
Qed.

(** X12: over a whole sequence of calls, of either tool and in any order,
    failed or not, no two successful replies carry the same [folder_id],
    provided [randomUUID()] never yields the same value twice. *)
Theorem X12_folder_ids_never_reused (E : Env) (requests : list Request.t) (w : World) :
  never_repeats E ->
  NoDup (folders (callTools E requests w).1).
Proof.
  intros Hfresh. revert w. induction requests as [|request rest IH]; intros w.
  - cbn. constructor.
  - cbn [callTools].
    pose proof (callTool_draws E request w) as [Hle Hok].
    destruct (callTool E request w) as [c w1]. cbn [fst snd] in Hle, Hok.
    pose proof (callTools_folders E rest w1) as [_ Hin].
    specialize (IH w1).
    destruct (callTools E rest w1) as [cs w2]. cbn [fst snd] in *.
    destruct c as [reply|e]; cbn [folders]; [|exact IH].
    constructor; [|exact IH].
    intros Hdup. destruct (Hok reply eq_refl) as [Hid Hdraw].
    destruct (Hin _ Hdup) as (k & Hk & Heq).
    rewrite Hid in Heq. apply Hfresh in Heq. lia.
Qed.

Lemma X12_folder_ids_witness :
  folders (callTools env_ok
             [ Request.mk "upload_file" (Some (<["file_path" := "/tmp/a.png"]> ∅));
               Request.mk "upload_file" (Some (<["file_path" := "/tmp/missing.png"]> ∅));
               Request.mk "upload_file" None;
               Request.mk "upload_file_content"
                 (Some (<["content" := "aGVsbG8="]> (<["filename" := "hello.txt"]> ∅)));
               Request.mk "upload_file" (Some (<["file_path" := "/tmp/a.png"]> ∅)) ]
             world0).1
  = ["id"; "idx"; "idxx"]
  /\ NoDup (folders (callTools env_ok
                       [ Request.mk "upload_file" (Some (<["file_path" := "/tmp/a.png"]> ∅));
                         Request.mk "upload_file"
                           (Some (<["file_path" := "/tmp/missing.png"]> ∅));
                         Request.mk "upload_file" None;
                         Request.mk "upload_file_content"
                           (Some (<["content" := "aGVsbG8="]>
                                    (<["filename" := "hello.txt"]> ∅)));
                         Request.mk "upload_file"
                           (Some (<["file_path" := "/tmp/a.png"]> ∅)) ]
                       world0).1).
Proof.
  split; [reflexivity|].
  apply X12_folder_ids_never_reused. exact never_repeats_env_ok.
Defined.

(** ** [basename] *)

Lemma combine_snoc {A B} (l : list A) (k : list B) (a : A) (b : B) :
  length l = length k -> combine (l ++ [a]) (k ++ [b]) = combine l k ++ [(a, b)].
Proof.
  revert k. induction l as [|x l IH]; intros [|y k] H; try discriminate.
  - reflexivity.
  - cbn [app combine]. f_equal. apply IH. now injection H.
Qed.

Lemma indexed_backwards_snoc (l : list ascii) (c : ascii) :
  indexed_backwards (l ++ [c]) = (length l, c) :: indexed_backwards l.
Proof.
  unfold indexed_backwards. rewrite length_app. cbn [length].
  rewrite seq_app. cbn [seq Nat.add].
  rewrite combine_snoc by now rewrite length_seq.
  now rewrite rev_app_distr.
Qed.

Lemma backwards_indexed (s : string) : backwards s = indexed_backwards (chars s).
Proof. reflexivity. Qed.

Lemma basename_stopped (l : list (nat * ascii)) (st : Basename.state) :
  Basename.stopped st = true -> fold_left Basename.step l st = st.
Proof.
  intros H. induction l as [|ic l IH]; [reflexivity|].
  cbn [fold_left]. unfold Basename.step at 2. rewrite H. exact IH.
Qed.

(** Inside the last component: the scan runs down to the slash that ends
    the directory prefix, or to the start of the path. *)
Lemma basename_component (pre comp : list ascii) (e : nat) :
  Forall (fun x => is_slash x = false) comp ->
  pre = [] \/ (exists p, pre = p ++ ["/"%char]) ->
  exists b,
    fold_left Basename.step (indexed_backwards (pre ++ comp))
      (Basename.mk 0 (Some e) false false)
    = Basename.mk (length pre) (Some e) false b.
Proof.
  intros Hcomp Hpre. induction comp as [|c comp IH] using rev_ind.
  - rewrite app_nil_r. destruct Hpre as [->|[p ->]].
    + exists false. reflexivity.
    + exists true. rewrite indexed_backwards_snoc. cbn [fold_left].
      unfold Basename.step at 2. cbn [Basename.stopped Basename.matchedSlash negb].
      change (is_slash "/") with true. cbv iota.
      rewrite basename_stopped by reflexivity.
      rewrite length_app. reflexivity.
  - apply Forall_app in Hcomp as [Hcomp Hc]. apply Forall_cons in Hc as [Hc _].
    rewrite app_assoc, indexed_backwards_snoc. cbn [fold_left].
    unfold Basename.step at 2. cbn [Basename.stopped Basename.end_]. rewrite Hc.
    apply IH, Hcomp.
Qed.

(** Trailing slashes are passed over. *)
Lemma basename_trailing (body slashes : list ascii) :
  Forall (fun x => is_slash x = true) slashes ->
  fold_left Basename.step (indexed_backwards (body ++ slashes)) Basename.init
  = fold_left Basename.step (indexed_backwards body) Basename.init.
Proof.
  intros H. induction slashes as [|c slashes IH] using rev_ind.
  - now rewrite app_nil_r.
  - apply Forall_app in H as [H Hc]. apply Forall_cons in Hc as [Hc _].
    rewrite app_assoc, indexed_backwards_snoc. cbn [fold_left].
    unfold Basename.step at 2. cbn [Basename.init Basename.stopped Basename.matchedSlash negb].
    rewrite Hc. apply IH, H.
Qed.

(** [basename] returns the last component of a path: what stands between
    the directory prefix and the trailing slashes. *)
Lemma basename_last_component (pre comp slashes : list ascii) :
  comp <> [] ->
  Forall (fun x => is_slash x = false) comp ->
  pre = [] \/ (exists p, pre = p ++ ["/"%char]) ->
  Forall (fun x => is_slash x = true) slashes ->
  basename (str (pre ++ comp ++ slashes)) = str comp.
Proof.
  intros Hne Hcomp Hpre Hsl. unfold basename, Basename.run.
  rewrite backwards_indexed, chars_str, app_assoc, basename_trailing by exact Hsl.
  destruct comp as [|c comp _] using rev_ind; [congruence|].
  apply Forall_app in Hcomp as [Hcomp Hc]. apply Forall_cons in Hc as [Hc _].
  rewrite app_assoc, indexed_backwards_snoc. cbn [fold_left].
  assert (Basename.step Basename.init (length (pre ++ comp), c)
          = Basename.mk 0 (Some (length (pre ++ comp) + 1)) false false) as ->.
  { unfold Basename.step.
    cbn [Basename.init Basename.stopped Basename.end_ Basename.start]. now rewrite Hc. }
  destruct (basename_component pre comp (length (pre ++ comp) + 1) Hcomp Hpre) as [b Hb].
  rewrite Hb. cbn [Basename.end_ Basename.start]. unfold slice. rewrite chars_str.
  f_equal. rewrite <- !app_assoc, drop_app_length.
  replace (length (pre ++ comp) + 1 - length pre) with (length (comp ++ [c]))
    by (rewrite !length_app; cbn [length]; lia).
  rewrite (app_assoc comp [c] slashes). apply take_app_length.
Qed.

Lemma basename_of_slashes (slashes : list ascii) :
  Forall (fun x => is_slash x = true) slashes -> basename (str slashes) = "".
Proof.
  intros H. unfold basename, Basename.run.
  rewrite backwards_indexed, chars_str.
  pose proof (basename_trailing [] slashes H) as Ht. cbn [app] in Ht.
  rewrite Ht. reflexivity.
Qed.

Lemma split_last_component (l : list ascii) :
  exists pre comp,
    l = pre ++ comp
    /\ Forall (fun x => is_slash x = false) comp
    /\ (pre = [] \/ exists p, pre = p ++ ["/"%char]).
Proof.
  induction l as [|c l (pre & comp & -> & Hcomp & Hpre)] using rev_ind.
  - exists [], []. repeat split; auto.
  - destruct (is_slash c) eqn:Hc.
    + exists ((pre ++ comp) ++ [c]), []. rewrite app_nil_r. repeat split; auto.
      right. exists (pre ++ comp). f_equal. f_equal.
      unfold is_slash in Hc. now apply Ascii.eqb_eq in Hc.
    + exists pre, (comp ++ [c]). rewrite app_assoc. repeat split; auto.
      apply Forall_app; split; [exact Hcomp|]. constructor; auto.
Qed.

Lemma path_shape (l : list ascii) :
  Forall (fun x => is_slash x = true) l
  \/ exists pre comp slashes,
       l = pre ++ comp ++ slashes
       /\ comp <> []
       /\ Forall (fun x => is_slash x = false) comp
       /\ (pre = [] \/ exists p, pre = p ++ ["/"%char])
       /\ Forall (fun x => is_slash x = true) slashes.
Proof.
  induction l as [|c l IH] using rev_ind.
  - left. constructor.
  - destruct (is_slash c) eqn:Hc.
    + destruct IH as [IH|(pre & comp & slashes & -> & Hne & Hcomp & Hpre & Hsl)].
      * left. apply Forall_app; split; [exact IH|]. constructor; auto.
      * right. exists pre, comp, (slashes ++ [c]). rewrite <- !app_assoc.
        repeat split; auto. apply Forall_app; split; [exact Hsl|]. constructor; auto.
    + right. destruct (split_last_component l) as (pre & comp & -> & Hcomp & Hpre).
      exists pre, (comp ++ [c]), []. rewrite app_nil_r, <- app_assoc.
      repeat split; auto.
      * intros E. apply (f_equal (@length ascii)) in E.
        rewrite length_app in E. cbn [length] in E. lia.
      * apply Forall_app; split; [exact Hcomp|]. constructor; auto.
Qed.

(** Whatever the path, [basename] holds no slash. *)
Lemma basename_slash_free (path : string) : slash_free (basename path).
Proof.
  unfold slash_free. rewrite <- (str_chars path).
  destruct (path_shape (chars path))
    as [H|(pre & comp & slashes & -> & Hne & Hcomp & Hpre & Hsl)].
  - rewrite basename_of_slashes by exact H. constructor.
  - rewrite basename_last_component by assumption. now rewrite chars_str.
Qed.

Lemma chars_nil (s : string) : chars s = [] -> s = "".
Proof. destruct s; [reflexivity|discriminate]. Qed.

Lemma dir_prefix_chars (dir : string) :
  dir_prefix dir -> chars dir = [] \/ exists p, chars dir = p ++ ["/"%char].
Proof.
  intros [->|[d ->]]; [left; reflexivity|].
  right. exists (chars d). now rewrite chars_append.
Qed.

(** [basename] on a path written as directory prefix, last component and
    trailing slashes. *)
Lemma basename_string (dir leaf tail : string) :
  leaf <> "" -> slash_free leaf -> dir_prefix dir -> only_slashes tail ->
  basename (dir +:+ leaf +:+ tail) = leaf.
Proof.
  intros Hne Hleaf Hdir Htail.
  rewrite <- (str_chars (dir +:+ leaf +:+ tail)), !chars_append.
  rewrite basename_last_component; auto using str_chars, dir_prefix_chars.
  intros E. apply Hne, chars_nil, E.
Qed.

Lemma truthy_append (a b c : string) : b <> "" -> truthy (a +:+ b +:+ c) = true.
Proof.
  intros Hb. destruct (a +:+ b +:+ c) eqn:E; [|reflexivity].
  apply (f_equal chars) in E. rewrite !chars_append in E.
  apply app_eq_nil in E as [_ E]. apply app_eq_nil in E as [E _].
  apply chars_nil in E. contradiction.
Qed.

(** ** File names *)

(** X13: [upload_file] keeps the last component of the path and nothing
    else of it: for a path made of a directory prefix, a component without
    slash and any number of trailing slashes, a successful call reports that
    component as [original_filename] and puts to
    [https://s3.reily.app/public/<folderId>/<component>]. *)
Theorem X13_upload_file_keeps_last_component
  (E : Env) (dir leaf tail : string) (ct : option string) (w : World)
  (bytes : list Byte.byte) (out err : string) :
  leaf <> "" -> slash_free leaf -> dir_prefix dir -> only_slashes tail ->
  files w !! (dir +:+ leaf +:+ tail) = Some bytes ->
  spawn_outcome E (file_command E w (FileArgs.mk (dir +:+ leaf +:+ tail) ct))
  = Exited 0 out err ->
  exists r w',
    handleUploadFile E (FileArgs.mk (dir +:+ leaf +:+ tail) ct) w = (Normal r, w')
    /\ FileResult.original_filename r = leaf
    /\ FileResult.remote_path r = folder_of E w +:+ "/" +:+ leaf
    /\ FileResult.url r = "https://s3.reily.app/public/" +:+ (folder_of E w +:+ "/" +:+ leaf).
Proof.
  intros Hne Hleaf Hdir Htail Hfile Hspawn.
  eexists. eexists. split.
  { rewrite handleUploadFile_unfold. cbv zeta. cbn [FileArgs.file_path].
    rewrite truthy_append by exact Hne. rewrite Hfile, Hspawn. reflexivity. }
  cbn [FileResult.original_filename FileResult.remote_path FileResult.url].
  unfold remote_of. rewrite basename_string by assumption. repeat split.
Qed.

Lemma X13_last_component_witness :
  exists r w',
    handleUploadFile env_ok (FileArgs.mk ("/tmp/" +:+ "a.png" +:+ "") None) world0
    = (Normal r, w')
    /\ FileResult.original_filename r = "a.png"
    /\ FileResult.remote_path r = "id" +:+ "/" +:+ "a.png"
    /\ FileResult.url r = "https://s3.reily.app/public/" +:+ ("id" +:+ "/" +:+ "a.png").
Proof.
  refine (X13_upload_file_keeps_last_component env_ok "/tmp/" "a.png" "" None world0
            [Byte.x89] "" "" _ _ _ _ eq_refl eq_refl).
  - discriminate.
  - repeat constructor.
  - right. exists "/tmp". reflexivity.
  - constructor.
Defined.

Lemma slash_free_append (a b : string) :
  slash_free a -> slash_free b -> slash_free (a +:+ b).
Proof.
  unfold slash_free. intros Ha Hb. rewrite chars_append. now apply Forall_app.
Qed.

Lemma staged_path_leaf (E : Env) (w : World) (filename : string) :
  slash_free (folder_of E w) ->
  exists leaf, staged_path E w filename = "/tmp/" +:+ leaf /\ slash_free leaf.
Proof.
  intros Hid. exists (folder_of E w +:+ "_" +:+ basename filename). split; [reflexivity|].
  apply slash_free_append; [exact Hid|].
  apply slash_free_append; [repeat constructor|apply basename_slash_free].
Qed.

(** X14: whatever the filename, [upload_file_content] writes and deletes
    directly under [/tmp/] only: when the identifier drawn holds no slash,
    every path the call writes to or deletes is [/tmp/] followed by a name
    without slash, so a filename such as [../../etc/passwd] cannot direct
    the staged file elsewhere. *)
Theorem X14_staged_file_stays_under_tmp (E : Env) (args : ContentArgs.t) (w : World) :
  slash_free (folder_of E w) ->
  exists evs,
    trace (handleUploadFileContent E args w).2 = trace w ++ evs
    /\ forall p,
         (EvDelete p ∈ evs \/ exists data, EvWrite p data ∈ evs) ->
         exists leaf, p = "/tmp/" +:+ leaf /\ slash_free leaf.
Proof.
  intros Hid.
  pose proof (staged_path_leaf E w (ContentArgs.filename args) Hid) as Hleaf.
  rewrite handleUploadFileContent_unfold. cbv zeta.
  destruct (truthy _ && truthy _).
  2:{ exists []. split; [now rewrite app_nil_r|]. intros p [H|[d H]]; inversion H. }
  destruct (atob _).
  2:{ exists []. split; [now rewrite app_nil_r|]. intros p [H|[d H]]; inversion H. }
  destruct (write_throws E _ _).
  { eexists. split; [reflexivity|]. intros p [H|[d H]]; elem_cases H.
    now injection H as -> _. }
  destruct (spawn_outcome E _) as [code out err|msg].
  2:{ eexists. split; [reflexivity|]. intros p [H|[d H]]; elem_cases H.
      now injection H as -> _. }
  cbn [snd]. destruct (delete_throws E _);
    (eexists; split; [reflexivity|]; intros p [H|[d H]]; elem_cases H;
     [now injection H as ->|now injection H as -> _]).
Qed.

Lemma X14_staged_file_witness :
  slash_free "id"
  /\ exists evs,
       trace (handleUploadFileContent env_ok
                (ContentArgs.mk "aGVsbG8=" "../../etc/passwd" None) world0).2
       = trace world0 ++ evs
       /\ EvWrite "/tmp/id_passwd" hello ∈ evs
       /\ forall p,
            (EvDelete p ∈ evs \/ exists data, EvWrite p data ∈ evs) ->
            exists leaf, p = "/tmp/" +:+ leaf /\ slash_free leaf.
Proof.
  assert (slash_free "id") as Hid by repeat constructor.
  split; [exact Hid|].
  destruct (X14_staged_file_stays_under_tmp env_ok
              (ContentArgs.mk "aGVsbG8=" "../../etc/passwd" None) world0 Hid)
    as (evs & Ht & Hp).
  exists evs. split; [exact Ht|]. split; [|exact Hp].
  change (trace world0) with (@nil Event) in Ht. cbn [app] in Ht. rewrite <- Ht.
  apply elem_of_cons. right. apply elem_of_cons. left. reflexivity.
Defined.

Lemma append_inj_length (a b x y : string) :
  String.length a = String.length b -> a +:+ x = b +:+ y -> a = b.
Proof.
  revert b. induction a as [|c a IH]; intros [|d b] Hlen H; try discriminate.
  - reflexivity.
  - change (String c (a +:+ x) = String d (b +:+ y)) in H.
    injection H as -> H. f_equal. apply IH; [now injection Hlen|exact H].
Qed.

(** X15: staged files of two calls cannot collide when their identifiers
    differ and have the same length, as the values of [randomUUID()] do:
    the two staged paths then differ whatever the two filenames. *)
Theorem X15_staged_paths_do_not_collide
  (E : Env) (w1 w2 : World) (filename1 filename2 : string) :
  String.length (folder_of E w1) = String.length (folder_of E w2) ->
  folder_of E w1 <> folder_of E w2 ->
  staged_path E w1 filename1 <> staged_path E w2 filename2.
Proof.
  intros Hlen Hne H. apply Hne. unfold staged_path in H.
  change ("/tmp/" +:+ ?s) with (String "/" (String "t" (String "m" (String "p" (String "/" s)))))
    in H.
  injection H as H. eapply append_inj_length; [exact Hlen|exact H].
Qed.

Lemma X15_staged_paths_witness :
  staged_path env_uuid (mkWorld ∅ 0 []) "report_final.pdf"
  <> staged_path env_uuid (mkWorld ∅ 1 []) "report_final.pdf".
Proof.
  apply (X15_staged_paths_do_not_collide env_uuid (mkWorld ∅ 0 []) (mkWorld ∅ 1 [])).
  - reflexivity.
  - discriminate.
Defined.

(** Identifiers of different lengths can collide: the hypothesis on the
    lengths is needed. *)
Example staged_path_collision :
  "/tmp/" +:+ "a" +:+ "_" +:+ basename "b_c" = "/tmp/" +:+ "a_b" +:+ "_" +:+ basename "c".
Proof. reflexivity. Qed.

(** ** [extname] *)

Lemma extname_stopped (l : list (nat * ascii)) (st : Extname.state) :
  Extname.stopped st = true -> fold_left Extname.step l st = st.
Proof.
  intros H. induction l as [|ic l IH]; [reflexivity|].
  cbn [fold_left]. unfold Extname.step at 2. rewrite H. exact IH.
Qed.

Lemma extname_trailing (body slashes : list ascii) :
  Forall (fun x => is_slash x = true) slashes ->
  fold_left Extname.step (indexed_backwards (body ++ slashes)) Extname.init
  = fold_left Extname.step (indexed_backwards body) Extname.init.
Proof.
  intros H. induction slashes as [|c slashes IH] using rev_ind.
  - now rewrite app_nil_r.
  - apply Forall_app in H as [H Hc]. apply Forall_cons in Hc as [Hc _].
    rewrite app_assoc, indexed_backwards_snoc. cbn [fold_left].
    assert (Extname.step Extname.init (length (body ++ slashes), c) = Extname.init) as ->.
    { unfold Extname.step. cbn [Extname.init Extname.stopped Extname.matchedSlash negb].
      now rewrite Hc. }
    apply IH, H.
Qed.

(** The directory prefix, seen after the last component: the scan stops at
    its final slash. *)
Lemma extname_prefix (pre : list ascii) (sd e : option nat) (p : Z) :
  pre = [] \/ (exists q, pre = q ++ ["/"%char]) ->
  exists b,
    fold_left Extname.step (indexed_backwards pre) (Extname.mk sd 0 e false p false)
    = Extname.mk sd (length pre) e false p b.
Proof.
  intros [->|[q ->]].
  - exists false. reflexivity.
  - exists true. rewrite indexed_backwards_snoc. cbn [fold_left].
    assert (Extname.step (Extname.mk sd 0 e false p false) (length q, "/"%char)
            = Extname.mk sd (length q + 1) e false p true) as ->.
    { unfold Extname.step. cbn [Extname.stopped Extname.matchedSlash negb].
      change (is_slash "/") with true. reflexivity. }
    rewrite extname_stopped by reflexivity. now rewrite length_app.
Qed.

(** A component without dot: no dot is ever met. *)
Lemma extname_plain (pre comp : list ascii) (e : nat) :
  Forall (fun x => is_slash x = false /\ is_dot x = false) comp ->
  pre = [] \/ (exists q, pre = q ++ ["/"%char]) ->
  exists b,
    fold_left Extname.step (indexed_backwards (pre ++ comp))
      (Extname.mk None 0 (Some e) false 0 false)
    = Extname.mk None (length pre) (Some e) false 0 b.
Proof.
  intros Hcomp Hpre. induction comp as [|c comp IH] using rev_ind.
  - rewrite app_nil_r. now apply extname_prefix.
  - apply Forall_app in Hcomp as [Hcomp Hc]. apply Forall_cons in Hc as [[Hs Hd] _].
    rewrite app_assoc, indexed_backwards_snoc. cbn [fold_left].
    assert (Extname.step (Extname.mk None 0 (Some e) false 0 false)
              (length (pre ++ comp), c)
            = Extname.mk None 0 (Some e) false 0 false) as ->.
    { unfold Extname.step. cbn [Extname.stopped Extname.end_ Extname.startDot].
      now rewrite Hs, Hd. }
    apply IH, Hcomp.
Qed.

(** The part of the component before its last dot: only its first
    character decides the final [preDotState]. *)
Lemma extname_stem (pre stem : list ascii) (d e : nat) (p : Z) :
  Forall (fun x => is_slash x = false) stem ->
  pre = [] \/ (exists q, pre = q ++ ["/"%char]) ->
  exists b,
    fold_left Extname.step (indexed_backwards (pre ++ stem))
      (Extname.mk (Some d) 0 (Some e) false p false)
    = Extname.mk (Some d) (length pre) (Some e) false
        (match stem with
         | [] => p
         | c :: _ => if is_dot c then 1 else (-1)
         end)%Z b.
Proof.
  intros Hstem Hpre. revert p.
  induction stem as [|c stem IH] using rev_ind; intros p.
  - rewrite app_nil_r. now apply extname_prefix.
  - apply Forall_app in Hstem as [Hstem Hc]. apply Forall_cons in Hc as [Hc _].
    rewrite app_assoc, indexed_backwards_snoc. cbn [fold_left].
    assert (Extname.step (Extname.mk (Some d) 0 (Some e) false p false)
              (length (pre ++ stem), c)
            = Extname.mk (Some d) 0 (Some e) false (if is_dot c then 1 else (-1))%Z false)
      as ->.
    { unfold Extname.step.
      cbn [Extname.stopped Extname.end_ Extname.startDot Extname.preDotState
           Extname.startPart Extname.matchedSlash].
      rewrite Hc. destruct (is_dot c); [|reflexivity].
      destruct (Z.eqb_spec p 1) as [->|]; reflexivity. }
    destruct (IH Hstem (if is_dot c then 1 else (-1))%Z) as [b Hb].
    exists b. rewrite Hb. destruct stem; reflexivity.
Qed.

(** The extension proper, followed by the dot before it. *)
Lemma extname_ext (body ext : list ascii) :
  Forall (fun x => is_slash x = false /\ is_dot x = false) ext ->
  fold_left Extname.step (indexed_backwards (body ++ "."%char :: ext)) Extname.init
  = fold_left Extname.step (indexed_backwards body)
      (Extname.mk (Some (length body)) 0 (Some (length body + 1 + length ext)) false 0 false).
Proof.
  intros Hext.
  assert (forall e,
            fold_left Extname.step (indexed_backwards (body ++ ["."%char]))
              (Extname.mk None 0 e false 0 false)
            = fold_left Extname.step (indexed_backwards body)
                (Extname.mk (Some (length body)) 0
                   (Some (match e with None => length body + 1 | Some n => n end))
                   false 0 false)) as Hdot.
  { intros e. rewrite indexed_backwards_snoc. cbn [fold_left]. f_equal.
    unfold Extname.step. cbn [Extname.stopped]. change (is_slash ".") with false.
    change (is_dot ".") with true. destruct e; reflexivity. }
  destruct ext as [|c ext _] using rev_ind.
  - change Extname.init with (Extname.mk None 0 None true 0 false).
    rewrite indexed_backwards_snoc. cbn [fold_left]. f_equal.
    + unfold Extname.step. cbn [Extname.stopped Extname.end_ Extname.startDot].
      change (is_slash ".") with false. change (is_dot ".") with true.
      cbn [length]. rewrite Nat.add_0_r. reflexivity.
  - apply Forall_app in Hext as [Hext Hc]. apply Forall_cons in Hc as [[Hs Hd] _].
    change (body ++ "."%char :: ext ++ [c]) with (body ++ ("."%char :: ext) ++ [c]).
    rewrite app_assoc, indexed_backwards_snoc. cbn [fold_left].
    assert (Extname.step Extname.init (length (body ++ "."%char :: ext), c)
            = Extname.mk None 0 (Some (length (body ++ "."%char :: ext) + 1)) false 0 false)
      as ->.
    { unfold Extname.step. cbn [Extname.init Extname.stopped Extname.end_ Extname.startDot].
      now rewrite Hs, Hd. }
    assert (forall e,
              fold_left Extname.step (indexed_backwards (body ++ "."%char :: ext))
                (Extname.mk None 0 (Some e) false 0 false)
              = fold_left Extname.step (indexed_backwards body)
                  (Extname.mk (Some (length body)) 0 (Some e) false 0 false)) as Hrun.
    { intros e. clear Hs Hd. induction ext as [|x ext IH] using rev_ind.
      - apply (Hdot (Some e)).
      - apply Forall_app in Hext as [Hext Hx]. apply Forall_cons in Hx as [[Hs Hd] _].
        change (body ++ "."%char :: ext ++ [x]) with (body ++ ("."%char :: ext) ++ [x]).
        rewrite app_assoc, indexed_backwards_snoc. cbn [fold_left].
        assert (Extname.step (Extname.mk None 0 (Some e) false 0 false)
                  (length (body ++ "."%char :: ext), x)
                = Extname.mk None 0 (Some e) false 0 false) as ->.
        { unfold Extname.step. cbn [Extname.stopped Extname.end_ Extname.startDot].
          now rewrite Hs, Hd. }
        apply IH, Hext. }
    rewrite Hrun.
    replace (length (body ++ "."%char :: ext) + 1)
      with (length body + 1 + length (ext ++ [c])); [reflexivity|].
    rewrite !length_app. cbn [length]. lia.
Qed.

(** [extname] returns the last dot of the last component and what follows
    it, when something stands before that dot and the component is not
    [..]. *)
Lemma extname_last_dot (pre stem ext slashes : list ascii) :
  stem <> [] ->
  Forall (fun x => is_slash x = false) stem ->
  Forall (fun x => is_slash x = false /\ is_dot x = false) ext ->
  pre = [] \/ (exists q, pre = q ++ ["/"%char]) ->
  Forall (fun x => is_slash x = true) slashes ->
  ~ (stem = ["."%char] /\ ext = []) ->
  extname (str (pre ++ stem ++ "."%char :: ext ++ slashes)) = str ("."%char :: ext).
Proof.
  intros Hne Hstem Hext Hpre Hsl Hdots. unfold extname, Extname.run.
  rewrite backwards_indexed, chars_str.
  replace (pre ++ stem ++ "."%char :: ext ++ slashes)
    with (((pre ++ stem) ++ "."%char :: ext) ++ slashes)
    by (rewrite <- !app_assoc; reflexivity).
  rewrite extname_trailing by exact Hsl. rewrite extname_ext by exact Hext.
  destruct (extname_stem pre stem (length (pre ++ stem))
              (length (pre ++ stem) + 1 + length ext) 0 Hstem Hpre) as [b Hb].
  rewrite Hb.
  cbn [Extname.startDot Extname.end_ Extname.preDotState Extname.startPart].
  destruct stem as [|c stem]; [congruence|].
  assert (((if is_dot c then 1 else -1) =? 0)%Z
          || ((if is_dot c then 1 else -1) =? 1)%Z
             && Nat.eqb (length (pre ++ c :: stem))
                  (length (pre ++ c :: stem) + 1 + length ext - 1)
             && Nat.eqb (length (pre ++ c :: stem)) (length pre + 1)
          = false) as ->.
  { destruct (is_dot c) eqn:Hc; [|reflexivity]. cbn [Z.eqb Pos.eqb orb andb].
    apply andb_false_iff.
    destruct (Nat.eqb_spec (length (pre ++ c :: stem))
                (length (pre ++ c :: stem) + 1 + length ext - 1)) as [He|]; [|now left].
    destruct (Nat.eqb_spec (length (pre ++ c :: stem)) (length pre + 1)) as [Hd|];
      [|now right].
    exfalso. apply Hdots. rewrite length_app in Hd. cbn [length] in Hd.
    destruct stem; [|cbn [length] in Hd; lia].
    destruct ext; [|cbn [length] in He; lia].
    unfold is_dot in Hc. apply Ascii.eqb_eq in Hc. now subst c. }
  unfold slice. rewrite chars_str. f_equal.
  rewrite <- app_assoc, drop_app_length.
  replace (length (pre ++ c :: stem) + 1 + length ext - length (pre ++ c :: stem))
    with (length ("."%char :: ext)) by (cbn [length]; lia).
  change (("."%char :: ext) ++ slashes) with ("."%char :: ext ++ slashes).
  change ("."%char :: ext ++ slashes) with (("."%char :: ext) ++ slashes).
  apply take_app_length.
Qed.

(** A last component without dot has no extension. *)
Lemma extname_no_dot (pre comp slashes : list ascii) :
  comp <> [] ->
  Forall (fun x => is_slash x = false /\ is_dot x = false) comp ->
  pre = [] \/ (exists q, pre = q ++ ["/"%char]) ->
  Forall (fun x => is_slash x = true) slashes ->
  extname (str (pre ++ comp ++ slashes)) = "".
Proof.
  intros Hne Hcomp Hpre Hsl. unfold extname, Extname.run.
  rewrite backwards_indexed, chars_str, app_assoc, extname_trailing by exact Hsl.
  destruct comp as [|c comp _] using rev_ind; [congruence|].
  apply Forall_app in Hcomp as [Hcomp Hc]. apply Forall_cons in Hc as [[Hs Hd] _].
  rewrite app_assoc, indexed_backwards_snoc. cbn [fold_left].
  assert (Extname.step Extname.init (length (pre ++ comp), c)
          = Extname.mk None 0 (Some (length (pre ++ comp) + 1)) false 0 false) as ->.
  { unfold Extname.step. cbn [Extname.init Extname.stopped Extname.end_ Extname.startDot].
    now rewrite Hs, Hd. }
  destruct (extname_plain pre comp (length (pre ++ comp) + 1) Hcomp Hpre) as [b Hb].
  rewrite Hb. reflexivity.
Qed.

Lemma or_else_default (o : option string) (d : string) :
  (forall v, o = Some v -> truthy v = true) -> or_else o d = default d o.
Proof.
  intros H. destruct o as [v|]; [|reflexivity].
  cbn [or_else default]. now rewrite (H v eq_refl).
Qed.

Lemma plain_slash_free (s : string) : plain s -> slash_free s.
Proof.
  unfold plain, slash_free. intros H. eapply Forall_impl; [exact H|]. now intros x [? _].
Qed.

Lemma extname_string (dir stem ext tail : string) :
  stem <> "" -> slash_free stem -> ext <> "" -> plain ext ->
  dir_prefix dir -> only_slashes tail ->
  extname (dir +:+ stem +:+ "." +:+ ext +:+ tail) = "." +:+ ext.
Proof.
  intros Hne Hstem Hext Hplain Hdir Htail.
  rewrite <- (str_chars (dir +:+ stem +:+ "." +:+ ext +:+ tail)), !chars_append.
  change (chars "." ++ chars ext ++ chars tail) with ("."%char :: chars ext ++ chars tail).
  rewrite extname_last_dot; auto using dir_prefix_chars.
  - change ("."%char :: chars ext) with (chars ("." +:+ ext)). apply str_chars.
  - intros E. apply Hne, chars_nil, E.
  - intros [_ E]. apply Hext, chars_nil, E.
Qed.

(** ** MIME types by file name *)

(** X16: the type depends on the text after the last dot of the last path
    component, without regard to case: for a name made of a directory
    prefix, a non-empty stem, a dot, a non-empty extension without dot or
    slash, and trailing slashes, [detectContentType] gives the entry of its
    table for the lower-cased [.<extension>], or [image/jpeg] when there is
    none, and the resolver of [upload_file_content] gives the entry of its
    own table, or [application/octet-stream]. *)
Theorem X16_type_is_decided_by_extension (dir stem ext tail : string) :
  stem <> "" -> slash_free stem -> ext <> "" -> plain ext ->
  dir_prefix dir -> only_slashes tail ->
  detectContentType (dir +:+ stem +:+ "." +:+ ext +:+ tail)
  = default "image/jpeg" (mimeMap !! toLowerCase ("." +:+ ext))
  /\ detectContentMimeType (dir +:+ stem +:+ "." +:+ ext +:+ tail)
     = default "application/octet-stream" (contentMimeMap !! toLowerCase ("." +:+ ext)).
Proof.
  intros Hne Hstem Hext Hplain Hdir Htail.
  unfold detectContentType, detectContentMimeType.
  rewrite extname_string by assumption. split.
  - apply or_else_default. intros v. apply mimeMap_truthy.
  - apply or_else_default. intros v. apply contentMimeMap_truthy.
Qed.

Lemma X16_extension_witness :
  detectContentType ("/home/u/" +:+ "Photo.final" +:+ "." +:+ "PNG" +:+ "") = "image/png"
  /\ detectContentMimeType ("/home/u/" +:+ "Photo.final" +:+ "." +:+ "PNG" +:+ "")
     = "image/png".
Proof.
  refine (X16_type_is_decided_by_extension "/home/u/" "Photo.final" "PNG" "" _ _ _ _ _ _).
  - discriminate.
  - repeat constructor.
  - discriminate.
  - repeat constructor.
  - right. exists "/home/u". reflexivity.
  - constructor.
Defined.

(** X17: a name whose last component holds no dot has no extension to go
    by: [detectContentType] answers [image/jpeg] and the resolver of
    [upload_file_content] answers [application/octet-stream]. *)
Theorem X17_no_dot_means_default (dir leaf tail : string) :
  leaf <> "" -> plain leaf -> dir_prefix dir -> only_slashes tail ->
  detectContentType (dir +:+ leaf +:+ tail) = "image/jpeg"
  /\ detectContentMimeType (dir +:+ leaf +:+ tail) = "application/octet-stream".
Proof.
  intros Hne Hplain Hdir Htail.
  assert (extname (dir +:+ leaf +:+ tail) = "") as Hext.
  { rewrite <- (str_chars (dir +:+ leaf +:+ tail)), !chars_append.
    apply extname_no_dot; auto using dir_prefix_chars.
    intros E. apply Hne, chars_nil, E. }
  unfold detectContentType, detectContentMimeType. rewrite Hext. split; reflexivity.
Qed.

Lemma X17_no_dot_witness :
  detectContentType ("/src/" +:+ "Makefile" +:+ "") = "image/jpeg"
  /\ detectContentMimeType ("/src/" +:+ "Makefile" +:+ "") = "application/octet-stream".
Proof.
  refine (X17_no_dot_means_default "/src/" "Makefile" "" _ _ _ _).
  - discriminate.
  - repeat constructor.
  - right. exists "/src". reflexivity.
  - constructor.
Defined.

(** X18: the two tables never disagree: an extension that the table of
    [upload_file_content] lists is listed by the table of [upload_file] with
    the same type, so a name with such an extension gets the same type from
    both tools. *)
Theorem X18_tables_agree (name : string) :
  is_Some (contentMimeMap !! toLowerCase (extname name)) ->
  detectContentType name = detectContentMimeType name.
Proof.
  intros [v Hv]. unfold detectContentType, detectContentMimeType. rewrite Hv.
  pose proof (contentMimeMap_truthy _ _ Hv) as Ht.
  assert (mimeMap !! toLowerCase (extname name) = Some v) as ->;
    [|cbn [or_else]; now rewrite Ht].
  revert Hv. generalize (toLowerCase (extname name)). intros k Hk.
  unfold contentMimeMap in Hk. apply elem_of_list_to_map_2 in Hk.
  repeat (apply elem_of_cons in Hk as [Hk|Hk]; [injection Hk as -> ->; reflexivity|]).
  inversion Hk.
Qed.

Lemma X18_tables_agree_witness :
  detectContentType "clip.MP4" = detectContentMimeType "clip.MP4".
Proof.
  apply X18_tables_agree. eexists. reflexivity.
Defined.

(** ** Inline-data URLs *)

Lemma strip_prefix_same (p r : list ascii) : strip_prefix p (p ++ r) = Some r.
Proof.
  induction p as [|a p IH]; [reflexivity|].
  cbn [app strip_prefix]. now rewrite Ascii.eqb_refl.
Qed.

Lemma lazy_group_stops (mrest acc payload : list ascii) :
  Forall (fun x => x <> ";"%char) mrest ->
  Forall (fun x => is_line_terminator x = false) mrest ->
  dot_plus_to_end payload = true ->
  lazy_group acc (mrest ++ chars ";base64," ++ payload) = Some (rev acc ++ mrest, payload).
Proof.
  intros Hsemi Hline Hpayload. revert acc.
  induction mrest as [|c mrest IH]; intros acc; rewrite lazy_group_eq; cbv zeta.
  - cbn [app]. rewrite strip_prefix_same, Hpayload. now rewrite app_nil_r.
  - apply Forall_cons in Hsemi as [Hc Hsemi]. apply Forall_cons in Hline as [Hl Hline].
    cbn [app]. change (chars ";base64,") with (";"%char :: chars "base64,").
    cbn [strip_prefix].
    destruct (Ascii.eqb_spec ";" c) as [<-|_]; [congruence|].
    rewrite Hl, (IH Hsemi Hline). cbn [rev]. now rewrite <- app_assoc.
Qed.

(** The pattern takes a well-formed inline-data URL apart: the type is
    what stands between [data:] and [;base64,], the payload what follows. *)
Lemma match_data_url_build (mime payload : string) :
  mime <> "" -> lacks ";" mime -> one_line mime ->
  payload <> "" -> one_line payload ->
  match_data_url (data_url mime payload) = Some (mime, payload).
Proof.
  intros Hm Hsemi Hline Hp Hpl. unfold match_data_url, data_url.
  rewrite !chars_append, strip_prefix_same.
  unfold lacks in Hsemi. unfold one_line in Hline, Hpl.
  destruct (chars mime) as [|c mrest] eqn:E; [apply chars_nil in E; contradiction|].
  apply Forall_cons in Hsemi as [_ Hsemi]. apply Forall_cons in Hline as [Hl Hline].
  cbn [app]. rewrite Hl.
  rewrite lazy_group_stops; auto.
  - cbn [rev app]. rewrite <- E, !str_chars. reflexivity.
  - unfold dot_plus_to_end.
    destruct (chars payload) eqn:Ep; [apply chars_nil in Ep; contradiction|].
    apply forallb_forall. intros x Hx. apply negb_true_iff.
    eapply Forall_forall in Hpl; [exact Hpl|]. now apply list_elem_of_In.
Qed.

Lemma b64_or_pad_one_line (c : ascii) : b64_or_pad c = true -> is_line_terminator c = false.
Proof.
  unfold b64_or_pad, is_line_terminator. intros H.
  destruct (N.eqb_spec (N_of_ascii c) 10) as [E|_].
  { apply (f_equal ascii_of_N) in E. rewrite ascii_N_embedding in E. subst c. discriminate. }
  destruct (N.eqb_spec (N_of_ascii c) 13) as [E|_]; [|reflexivity].
  apply (f_equal ascii_of_N) in E. rewrite ascii_N_embedding in E. subst c. discriminate.
Qed.

Lemma one_line_encode (bs : list Byte.byte) : one_line (base64_encode bs).
Proof.
  unfold one_line, base64_encode. rewrite chars_str.
  eapply Forall_impl; [apply encode_groups_alphabet|]. apply b64_or_pad_one_line.
Qed.

Lemma encode_nonempty (bs : list Byte.byte) : bs <> [] -> base64_encode bs <> "".
Proof. intros H E. apply truthy_encode in H. rewrite E in H. discriminate. Qed.

Lemma prefix_data_url (mime payload : string) :
  String.prefix "data:" (data_url mime payload) = true.
Proof.
  unfold data_url. generalize (mime +:+ ";base64," +:+ payload).
  intros s. destruct s; reflexivity.
Qed.

(** X19: round trip through an inline-data URL: for every byte sequence
    that is not empty and every type that is not empty and holds neither a
    semicolon nor a line terminator, a call on
    [data:<type>;base64,<encoding of the bytes>] stages the very bytes and,
    when the write succeeds and curl exits with status 0, succeeds with
    [content_size] the number of bytes and with [mime_type] the explicit
    argument when that is present and not empty, else the type of the
    URL, whatever the extension of the filename. *)
Theorem X19_data_url_round_trip
  (E : Env) (bs : list Byte.byte) (mime filename : string) (explicit : option string)
  (w : World) (out err : string) :
  bs <> [] ->
  mime <> "" -> lacks ";" mime -> one_line mime ->
  truthy filename = true ->
  let args := ContentArgs.mk (data_url mime (base64_encode bs)) filename explicit in
  write_throws E (staged_path E w filename) bs = None ->
  spawn_outcome E (content_command E w args) = Exited 0 out err ->
  exists r w',
    handleUploadFileContent E args w = (Normal r, w')
    /\ staged_bytes explicit (data_url mime (base64_encode bs)) = bs
    /\ ContentResult.content_size r = length bs
    /\ ContentResult.mime_type r
       = match explicit with
         | Some (String c s) => String c s
         | _ => mime
         end.
Proof.
  intros Hbs Hm Hsemi Hline Hname args Hwrite Hspawn. subst args.
  assert (strip_data_url explicit (data_url mime (base64_encode bs))
          = (Some (or_else explicit mime), base64_encode bs)) as Hstrip.
  { unfold strip_data_url.
    rewrite match_data_url_build by auto using encode_nonempty, one_line_encode.
    now rewrite prefix_data_url. }
  assert (staged_bytes explicit (data_url mime (base64_encode bs)) = bs) as Hbuf.
  { unfold staged_bytes, payload_of. rewrite Hstrip. apply Buffer_from_base64_encode. }
  assert (atob (slice 0 100 (payload_of explicit (data_url mime (base64_encode bs))))
          = Some (take 75 bs)) as Hatob.
  { unfold payload_of. rewrite Hstrip. apply atob_prefix_encode. }
  assert (truthy (data_url mime (base64_encode bs)) = true) as Hcontent by reflexivity.
  eexists. eexists. split.
  { rewrite handleUploadFileContent_unfold. cbv zeta.
    cbn [ContentArgs.content ContentArgs.filename ContentArgs.mime_type].
    rewrite Hcontent, Hname, Hatob, Hbuf, Hwrite, Hspawn. reflexivity. }
  cbn [ContentResult.content_size ContentResult.mime_type].
  split; [exact Hbuf|]. split; [reflexivity|].
  unfold content_type_sent. rewrite Hstrip. cbn [fst].
  assert (truthy mime = true) as Hmt by (destruct mime; [congruence|reflexivity]).
  destruct explicit as [[|c s]|]; cbn [or_else truthy]; rewrite ?Hmt; reflexivity.
Qed.

Lemma X19_data_url_witness :
  exists r w',
    handleUploadFileContent env_ok
      (ContentArgs.mk (data_url "image/svg+xml" (base64_encode hello)) "hello.txt" None)
      world0 = (Normal r, w')
    /\ staged_bytes None (data_url "image/svg+xml" (base64_encode hello)) = hello
    /\ ContentResult.content_size r = 5
    /\ ContentResult.mime_type r = "image/svg+xml".
Proof.
  refine (X19_data_url_round_trip env_ok hello "image/svg+xml" "hello.txt" None world0 "" ""
            _ _ _ _ eq_refl eq_refl eq_refl).
  - discriminate.
  - discriminate.
  - repeat constructor; discriminate.
  - repeat constructor.
Defined.

(** ** Characters the prefix check refuses *)

Lemma strip_padding_keeps (l : list ascii) (c : ascii) :
  In c l -> is_pad c = false -> In c (strip_padding l).
Proof.
  intros Hin Hc. unfold strip_padding.
  assert (In c (rev l)) as Hrev by now apply in_rev in Hin.
  destruct (rev l) as [|c1 [|c2 r]] eqn:E.
  - exact Hin.
  - destruct (is_pad c1) eqn:H1; [|exact Hin].
    destruct Hrev as [->|[]]. congruence.
  - destruct (is_pad c1) eqn:H1; [|exact Hin].
    destruct Hrev as [->|Hrev]; [congruence|].
    destruct (is_pad c2) eqn:H2.
    + destruct Hrev as [->|Hrev]; [congruence|]. now apply in_rev in Hrev.
    + now apply in_rev in Hrev.
Qed.

(** [atob] throws on any string that holds a character which is neither
    white space, nor padding, nor of the alphabet. *)
Lemma atob_rejects (s : string) (c : ascii) :
  c ∈ chars s ->
  is_ascii_whitespace c = false ->
  b64_or_pad c = false ->
  atob s = None.
Proof.
  intros Hin Hws Hc. unfold b64_or_pad in Hc.
  destruct (b64_index c) eqn:Hidx; [discriminate|].
  unfold atob.
  set (data := filter (fun x => is_ascii_whitespace x = false) (chars s)).
  assert (c ∈ data) as Hdata by (apply list_elem_of_filter; auto).
  set (data' := if Nat.eqb (length data mod 4) 0 then strip_padding data else data).
  assert (c ∈ data') as Hdata'.
  { subst data'. destruct (Nat.eqb _ 0); [|exact Hdata].
    apply list_elem_of_In, strip_padding_keeps; [now apply list_elem_of_In|exact Hc]. }
  destruct (Nat.eqb (length data' mod 4) 1); [reflexivity|].
  rewrite (mapM_None_2 b64_index data'); [reflexivity|].
  apply Exists_exists. exists c. auto.
Qed.

(** X20: a payload is refused as soon as one of its first 100 characters
    is neither of the base64 alphabet, nor padding, nor white space: the
    call ends in the re-thrown "Invalid base64 content provided" error and
    leaves the world as it was. *)
Theorem X20_foreign_character_in_prefix_is_refused
  (E : Env) (args : ContentArgs.t) (w : World) (c : ascii) :
  truthy (ContentArgs.content args) = true ->
  truthy (ContentArgs.filename args) = true ->
  c ∈ take 100 (chars (payload_of (ContentArgs.mime_type args) (ContentArgs.content args))) ->
  is_ascii_whitespace c = false ->
  b64_or_pad c = false ->
  handleUploadFileContent E args w
  = (Abrupt (Mcp InternalError
       "MCP error -32603: Failed to upload file content: MCP error -32602: Invalid base64 content provided"),
     w).
Proof.
  intros Hc Hf Hin Hws Hbad.
  rewrite handleUploadFileContent_unfold. cbv zeta. rewrite Hc, Hf.
  rewrite (atob_rejects _ c); [reflexivity| |exact Hws|exact Hbad].
  unfold slice. now rewrite chars_str.
Qed.

Lemma X20_foreign_character_witness :
  match_data_url "data:text/plain,hello" = None
  /\ handleUploadFileContent env_ok (ContentArgs.mk "data:text/plain,hello" "hello.txt" None)
       world0
     = (Abrupt (Mcp InternalError
          "MCP error -32603: Failed to upload file content: MCP error -32602: Invalid base64 content provided"),
        world0).
Proof.
  split; [reflexivity|].
  apply (X20_foreign_character_in_prefix_is_refused env_ok
           (ContentArgs.mk "data:text/plain,hello" "hello.txt" None) world0 ":"%char);
    try reflexivity.
  do 4 (apply elem_of_cons; right). apply elem_of_cons. left. reflexivity.
Defined.
